(** * Transaction handle of [src/db/db.go]: a shallow embedding

    The Go package wraps a [sql.DB] and hands out transaction handles
    ([Tx]) that serialise their operations with a mutex, report every
    operation to a logging callback and keep a per-transaction result
    cache keyed by a [maphash] fingerprint of the query text.

    The handle is stateful and talks to collaborators that live outside
    the file (the SQL driver, the statement builder, the row decoder, the
    clock, the runtime's random seed).  The embedding threads an explicit
    state (handle fields and the world around it) through a small
    state-and-failure monad, and takes the collaborators as the fields of
    one class. *)

From Stdlib Require Import ZArith List String Ascii Lia.
From stdpp Require Import base decidable option gmap strings.
Import ListNotations.

(** ** Pointers and memory

    A pointer is modelled as a cell address; Go is memory safe, so every
    address holds a value. *)

Definition ptr := nat.

(** [Query] receives its destination as an [interface{}].  What matters
    to the code is whether it holds a pointer to a variable, a nil
    pointer, or something that is no pointer at all (the nil interface
    included). *)
Inductive interface :=
| Pointer (p : nat)
| NilPointer
| NotPointer.

Coercion Pointer : nat >-> interface.

Definition store {Value : Type} (p : ptr) (v : Value) (h : ptr -> Value) : ptr -> Value :=
  fun q => if Nat.eqb q p then v else h q.

(** ** [strconv.FormatInt] and [time.Time.UnixNano]

    [DB.Tx] derives an id from the clock with
    [strconv.FormatInt(time.Now().UnixNano(), 32)]. *)

(** The value of an [int64] holding the integer [z]. *)
Definition int64 (z : Z) : Z := ((z + 2 ^ 63) mod 2 ^ 64 - 2 ^ 63)%Z.

Definition digits : string := "0123456789abcdefghijklmnopqrstuvwxyz".

Definition digit (n : Z) : ascii :=
  match String.get (Z.to_nat n) digits with
  | Some c => c
  | None => "0"%char
  end.

(** The loop of [formatBits]: the low digit of [u] is put in front of
    what is already written until [u] is below the base.  The buffer of
    the Go function holds 65 bytes, which bounds the loop. *)
Fixpoint formatBits (fuel : nat) (u b : Z) (acc : string) : string :=
  match fuel with
  | O => String (digit u) acc
  | S fuel' =>
      if (b <=? u)%Z
      then formatBits fuel' (u / b) b (String (digit (u mod b)) acc)
      else String (digit u) acc
  end.

Definition FormatInt (i base : Z) : string :=
  if (i <? 0)%Z
  then String "-"%char (formatBits 64 (- i) base "")
  else formatBits 64 i base "".

(** Reading a rendering back, to tell renderings apart: the value of a
    digit and of a digit string in base 32. *)
Definition digit_val (c : ascii) : Z :=
  let n := Z.of_nat (nat_of_ascii c) in
  if ((48 <=? n) && (n <=? 57))%Z then (n - 48)%Z
  else if ((97 <=? n) && (n <=? 122))%Z then (n - 97 + 10)%Z
  else 0%Z.

Fixpoint parse32 (s : string) (a : Z) : Z :=
  match s with
  | EmptyString => a
  | String c s' => parse32 s' (a * 32 + digit_val c)%Z
  end.

Definition ParseInt32 (s : string) : Z :=
  match s with
  | String c s' => if Ascii.eqb c "-" then (- parse32 s' 0)%Z else parse32 s 0
  | EmptyString => 0%Z
  end.

(** ** Collaborators

    Everything [db.go] imports and calls but does not define. *)

Class Collaborators := {
  (** Go's [error] values, without [nil] ([option error] adds it). *)
  error : Type;
  (** [context.Context] *)
  context_Context : Type;
  (** [sql.Result], [sql.Rows], [sql.Tx], [sql.TxOptions] *)
  sql_Result : Type;
  sql_Rows : Type;
  sql_Tx : Type;
  (** The state of the database behind the [sql.DB] pool. *)
  Conn : Type;
  (** Values a destination variable can hold. *)
  Value : Type;
  (** [maphash.Seed] *)
  Seed : Type;
  (** [reflect.Type]: the Go types of variables. *)
  reflect_Type : Type;
  (** The static type of the variable at an address. *)
  type_of : ptr -> reflect_Type;
  (** Go's assignability: [assignable x t] when a value of type [x] can
      be assigned to a variable of type [t]; a type is assignable to
      itself. *)
  assignable : reflect_Type -> reflect_Type -> bool;
  assignable_refl : forall t, assignable t t = true;

  (** [sql.DB.BeginTx(ctx, opts)]; the options are the isolation level
      and the read-only flag. *)
  BeginTx : Conn -> context_Context -> Z * bool -> Conn * (sql_Tx * option error);
  (** [sql.Tx.ExecContext(ctx, query)] *)
  ExecContext : Conn -> sql_Tx -> context_Context -> string ->
                Conn * (option sql_Result * option error);
  (** [sql.Tx.QueryContext(ctx, query)] *)
  QueryContext : Conn -> sql_Tx -> context_Context -> string ->
                 Conn * (sql_Rows * option error);
  (** [sql.Tx.Commit()] and [sql.Tx.Rollback()] *)
  tx_Commit : Conn -> sql_Tx -> Conn * option error;
  tx_Rollback : Conn -> sql_Tx -> Conn * option error;

  (** [scan.Load(rows, dst)] of the repository's [scan] package (not part
      of [db.go]): decodes the rows into the variable [dst] points to and
      returns the number of rows and an error. *)
  scan_Load : sql_Rows -> interface -> (ptr -> Value) -> (ptr -> Value) * (Z * option error);

  (** The wall clock: the reading, in nanoseconds since the Unix epoch,
      that the [n]-th call of [time.Now()] obtains. *)
  clock : nat -> Z;
  (** The runtime's randomness: the seed the [n]-th call of
      [maphash.MakeSeed()] obtains. *)
  randSeed : nat -> Seed;
  (** The runtime's string hash behind [maphash]. *)
  rthash : Seed -> string -> Z
}.

(** [statement.Statement] is an interface with one method the handle
    calls, [String() (string, error)]; [fmt.Sprintf("%#v", stmt)] is its
    Go-syntax rendering. *)
Record Statement `{Collaborators} := mkStatement {
  stmt_String : string * option error;
  stmt_GoString : string
}.

Section Handle.
Context `{C : Collaborators}.

(** ** Observable events *)

(** The arguments of one call of the [Logger] callback. *)
Record LogEvent := mkLogEvent {
  message : string;
  id : string;
  err : option error;
  d : Z;
  query : string
}.

(** Calls on the underlying [sql.Tx]. *)
Inductive TxCall :=
| CallExecContext (q : string)
| CallQueryContext (q : string)
| CallCommit
| CallRollback.

Inductive Event :=
| EvLock
| EvUnlock
| EvBeginTx
| EvTx (c : TxCall)
| EvLog (e : LogEvent).

(** ** State *)

(** [maphash.Hash]: the seed (unset in the zero value, chosen at first
    use) and the bytes written since the last [Reset]. *)
Record Hash := mkHash {
  seed : option Seed;
  written : string
}.

(** A [reflect.Value] obtained by [reflect.ValueOf(dst).Elem()]: it is
    addressable and refers to the variable [dst] points to; it holds no
    copy of the variable's content.  [Elem] of a nil pointer is the zero
    [Value]. *)
Inductive reflect_Value :=
| ValueAt (p : ptr)
| ZeroValue.

(** [type Tx struct]; [mu] is [true] while the mutex is held.  The [log]
    field is the callback whose calls are recorded as [EvLog] events. *)
Record Tx := mkTx {
  mu : bool;
  tid : string;
  done : bool;
  tx : sql_Tx;
  ctx : context_Context;
  hash : Hash;
  cache : gmap Z reflect_Value
}.

(** What is outside the handle: memory, the database, the events so far
    (newest first) and how often the clock and the random source were
    read. *)
Record World := mkWorld {
  heap : ptr -> Value;
  conn : Conn;
  trace : list Event;
  ticks : nat;
  rng : nat
}.

Definition St : Type := Tx * World.

(** ** The monad of an operation

    An operation returns, or the runtime kills the process ([fatal]), or
    the goroutine parks on a held mutex for ever, or the operation
    panics: then the deferred calls run and the panic goes on to the
    caller. *)

Inductive Outcome (A : Type) :=
| Returned (a : A) (s : St)
| Fatal (msg : string) (s : St)
| Blocked (s : St)
| Panicked (msg : string) (s : St).

Arguments Returned {A} a s.
Arguments Fatal {A} msg s.
Arguments Blocked {A} s.
Arguments Panicked {A} msg s.

Definition M (A : Type) : Type := St -> Outcome A.

#[export] Instance M_ret : MRet M := fun A a s => Returned a s.

#[export] Instance M_bind : MBind M := fun A B k m s =>
  match m s with
  | Returned a s' => k a s'
  | Fatal msg s' => Fatal msg s'
  | Blocked s' => Blocked s'
  | Panicked msg s' => Panicked msg s'
  end.

Definition ret {A} (a : A) : M A := mret a.

Definition panic {A} (msg : string) : M A := fun s => Panicked msg s.

(** [defer f] followed by [body]: [f] runs when [body] returns and when
    it panics. *)
Definition defer {A} (f : M unit) (body : M A) : M A := fun s =>
  match body s with
  | Returned a s' =>
      match f s' with
      | Returned _ s'' => Returned a s''
      | Fatal msg s'' => Fatal msg s''
      | Blocked s'' => Blocked s''
      | Panicked msg s'' => Panicked msg s''
      end
  | Panicked msg s' =>
      match f s' with
      | Returned _ s'' => Panicked msg s''
      | Fatal msg' s'' => Fatal msg' s''
      | Blocked s'' => Blocked s''
      | Panicked msg' s'' => Panicked msg' s''
      end
  | o => o
  end.

Definition get_tx : M Tx := fun s => Returned (fst s) s.
Definition get_world : M World := fun s => Returned (snd s) s.
Definition put_tx (t : Tx) : M unit := fun s => Returned tt (t, snd s).
Definition put_world (w : World) : M unit := fun s => Returned tt (fst s, w).

Definition emit (e : Event) : M unit :=
  w ← get_world;
  put_world (mkWorld (heap w) (conn w) (e :: trace w) (ticks w) (rng w)).

(** ** [sync.Mutex] *)

Definition mu_Lock : M unit := fun s =>
  if mu (fst s) then Blocked s
  else
    let t := fst s in
    (put_tx (mkTx true (tid t) (done t) (tx t) (ctx t) (hash t) (cache t)) ;;
     emit EvLock) s.

Definition mu_Unlock : M unit := fun s =>
  if mu (fst s) then
    let t := fst s in
    (put_tx (mkTx false (tid t) (done t) (tx t) (ctx t) (hash t) (cache t)) ;;
     emit EvUnlock) s
  else Fatal "sync: unlock of unlocked mutex" s.

(** ** [time] *)

Definition time_Now : M Z :=
  w ← get_world;
  put_world (mkWorld (heap w) (conn w) (trace w) (S (ticks w)) (rng w)) ;;
  ret (clock (ticks w)).

Definition time_Since (start : Z) : M Z :=
  now ← time_Now;
  ret (now - start)%Z.

(** ** The logging callback *)

Definition log (msg : string) (e : option error) (d : Z) (q : string) : M unit :=
  t ← get_tx;
  emit (EvLog (mkLogEvent msg (tid t) e d q)).

(** ** [hash/maphash] *)

Definition put_hash (h : Hash) : M unit :=
  t ← get_tx;
  put_tx (mkTx (mu t) (tid t) (done t) (tx t) (ctx t) h (cache t)).

(** [initSeed]: the zero [Hash] takes a random seed at its first use. *)
Definition hash_initSeed : M Seed :=
  t ← get_tx;
  match seed (hash t) with
  | Some sd => ret sd
  | None =>
      w ← get_world;
      put_world (mkWorld (heap w) (conn w) (trace w) (ticks w) (S (rng w))) ;;
      put_hash (mkHash (Some (randSeed (rng w))) (written (hash t))) ;;
      ret (randSeed (rng w))
  end.

(** [WriteString] appends; it "always writes all of s and never fails". *)
Definition hash_WriteString (s : string) : M (Z * option error) :=
  sd ← hash_initSeed;
  t ← get_tx;
  put_hash (mkHash (Some sd) (written (hash t) ++ s)) ;;
  ret (Z.of_nat (String.length s), None).

(** [Sum64]: a [uint64] that depends on the seed and on the bytes written
    since the last [Reset]. *)
Definition hash_Sum64 : M Z :=
  sd ← hash_initSeed;
  t ← get_tx;
  ret (rthash sd (written (hash t)) mod 2 ^ 64)%Z.

(** [Reset] discards the bytes written and keeps the seed. *)
Definition hash_Reset : M unit :=
  sd ← hash_initSeed;
  put_hash (mkHash (Some sd) "").

(** ** [reflect] *)

(** [reflect.ValueOf(dst).Elem()]: the variable a pointer points to,
    the zero [Value] for a nil pointer, a panic for what is no pointer. *)
Definition reflect_ValueOf_Elem (dst : interface) : M reflect_Value :=
  match dst with
  | Pointer p => ret (ValueAt p)
  | NilPointer => ret ZeroValue
  | NotPointer => panic "reflect: call of reflect.Value.Elem on a Value that is no pointer"
  end.

(** [v.Set(x)] assigns the current content of [x] to the variable [v]
    refers to (one Go assignment of the top-level value).  It panics
    when [v] or [x] is the zero [Value] and when the type of [x] is not
    assignable to the type of [v]. *)
Definition Value_Set (v x : reflect_Value) : M unit :=
  w ← get_world;
  match v, x with
  | ValueAt pv, ValueAt px =>
      if assignable (type_of px) (type_of pv)
      then put_world (mkWorld (store pv (heap w px) (heap w)) (conn w) (trace w)
                              (ticks w) (rng w))
      else panic "reflect.Set: value is not assignable to the type of the destination"
  | _, _ => panic "reflect: call of reflect.Value.Set on zero Value"
  end.

(** ** Calls on the underlying transaction *)

Definition put_conn (c : Conn) : M unit :=
  w ← get_world;
  put_world (mkWorld (heap w) c (trace w) (ticks w) (rng w)).

Definition call_ExecContext (q : string) : M (option sql_Result * option error) :=
  t ← get_tx;
  w ← get_world;
  emit (EvTx (CallExecContext q)) ;;
  put_conn (fst (ExecContext (conn w) (tx t) (ctx t) q)) ;;
  ret (snd (ExecContext (conn w) (tx t) (ctx t) q)).

Definition call_QueryContext (q : string) : M (sql_Rows * option error) :=
  t ← get_tx;
  w ← get_world;
  emit (EvTx (CallQueryContext q)) ;;
  put_conn (fst (QueryContext (conn w) (tx t) (ctx t) q)) ;;
  ret (snd (QueryContext (conn w) (tx t) (ctx t) q)).

Definition call_Commit : M (option error) :=
  t ← get_tx;
  w ← get_world;
  emit (EvTx CallCommit) ;;
  put_conn (fst (tx_Commit (conn w) (tx t))) ;;
  ret (snd (tx_Commit (conn w) (tx t))).

Definition call_Rollback : M (option error) :=
  t ← get_tx;
  w ← get_world;
  emit (EvTx CallRollback) ;;
  put_conn (fst (tx_Rollback (conn w) (tx t))) ;;
  ret (snd (tx_Rollback (conn w) (tx t))).

(** [scan.Load(r, dst)] *)
Definition call_Load (r : sql_Rows) (dst : interface) : M (Z * option error) :=
  w ← get_world;
  put_world (mkWorld (fst (scan_Load r dst (heap w))) (conn w) (trace w) (ticks w) (rng w)) ;;
  ret (snd (scan_Load r dst (heap w))).

Definition set_done : M unit :=
  t ← get_tx;
  put_tx (mkTx (mu t) (tid t) true (tx t) (ctx t) (hash t) (cache t)).

(** [t.cache[key] = v] *)
Definition cache_put (key : Z) (v : reflect_Value) : M unit :=
  t ← get_tx;
  put_tx (mkTx (mu t) (tid t) (done t) (tx t) (ctx t) (hash t) (<[key := v]> (cache t))).

Definition is_err (e : option error) : bool :=
  match e with Some _ => true | None => false end.

(** ** The operations of the handle *)

(** [func (t Tx) Exec(stmt statement.Statement) (r sql.Result, err error)] *)
Definition Exec (stmt : Statement) : M (option sql_Result * option error) :=
  start ← time_Now;
  mu_Lock ;;
  defer mu_Unlock (
    let '(query, err) := stmt_String stmt in
    if is_err err then
      mu_Unlock ;;
      ret (None, err)
    else
      r ← call_ExecContext query;
      d ← time_Since start;
      log "db.tx.exec" (snd r) d query ;;
      ret r).

(** Lines 124-129 of [Query]: the fingerprint of the query text. *)
Definition fingerprint (query : string) : M (Z * option error) :=
  w ← hash_WriteString query;
  if is_err (snd w) then ret (0%Z, snd w)
  else
    key ← hash_Sum64;
    hash_Reset ;;
    ret (key, None).

(** [func (t Tx) Query(dst interface{}, stmt statement.Statement) (err error)] *)
Definition Query (dst : interface) (stmt : Statement) : M (option error) :=
  start ← time_Now;
  mu_Lock ;;
  defer mu_Unlock (
    let '(query, err) := stmt_String stmt in
    if is_err err then
      d ← time_Since start;
      log "db.tx.query.build" err d (stmt_GoString stmt) ;;
      ret err
    else
      k ← fingerprint query;
      if is_err (snd k) then ret (snd k)
      else
        let key := fst k in
        t ← get_tx;
        match cache t !! key with
        | Some r =>
            v ← reflect_ValueOf_Elem dst;
            Value_Set v r ;;
            d ← time_Since start;
            log "db.tx.query.cached" None d query ;;
            ret None
        | None =>
            r ← call_QueryContext query;
            if is_err (snd r) then ret (snd r)
            else
              l ← call_Load (fst r) dst;
              let err := snd l in
              if is_err err then ret err
              else if negb (is_err err) then
                d ← time_Since start;
                log "db.tx.query.cache.add" None d query ;;
                v ← reflect_ValueOf_Elem dst;
                cache_put key v ;;
                ret None
              else
                d ← time_Since start;
                log "db.tx.query" err d query ;;
                ret err
        end).

(** [func (t Tx) Commit() (err error)] *)
Definition Commit : M (option error) :=
  start ← time_Now;
  mu_Lock ;;
  defer mu_Unlock (
    err ← call_Commit;
    set_done ;;
    d ← time_Since start;
    log "db.tx.commit" err d "" ;;
    ret err).

(** [func (t Tx) Rollback() (err error)] *)
Definition Rollback : M (option error) :=
  start ← time_Now;
  mu_Lock ;;
  defer mu_Unlock (
    t ← get_tx;
    if done t then ret None
    else
      err ← call_Rollback;
      set_done ;;
      d ← time_Since start;
      log "db.tx.rollback" err d "" ;;
      ret err).

End Handle.

Arguments Returned {C A} a s.
Arguments Fatal {C A} msg s.
Arguments Blocked {C A} s.
Arguments Panicked {C A} msg s.

(** ** The database wrapper *)

Section Database.
Context `{C : Collaborators}.

(** [type Config struct]: the isolation levels ([sql.IsolationLevel] is
    an [int]); the [Log] callback, or [noopLogger] in its place, is the
    sink whose calls the trace records. *)
Record Config := mkConfig {
  ReadOpt : Z;
  WriteOpt : Z
}.

(** [type DB struct]: the pool is the [conn] of the world. *)
Record DB := mkDB {
  readOpt : Z * bool;
  writeOpt : Z * bool
}.

(** [func New(db, config) (d, err)] *)
Definition New (config : Config) : DB * option error :=
  (mkDB (ReadOpt config, true) (WriteOpt config, false), None).

(** [time.Now().UnixNano()] *)
Definition UnixNano (t : Z) : Z := int64 t.

(** [func (d DB) Tx(ctx, tid, opts) (tx, err)] *)
Definition DB_Tx (d : DB) (cx : context_Context) (tid : string) (opts : Z * bool)
    (w : World) : World * (option Tx * option error) :=
  let b := BeginTx (conn w) cx opts in
  let w1 := mkWorld (heap w) (fst b) (EvBeginTx :: trace w) (ticks w) (rng w) in
  if is_err (snd (snd b)) then (w1, (None, snd (snd b)))
  else
    if String.eqb tid "" then
      (mkWorld (heap w1) (conn w1) (trace w1) (S (ticks w1)) (rng w1),
       (Some (mkTx false (FormatInt (UnixNano (clock (ticks w1))) 32) false
                   (fst (snd b)) cx (mkHash None "") ∅), None))
    else
      (w1, (Some (mkTx false tid false (fst (snd b)) cx (mkHash None "") ∅), None)).

(** [func (d DB) Read(ctx, tid)] and [func (d DB) Update(ctx, tid)] *)
Definition Read (d : DB) (cx : context_Context) (tid : string) (w : World) :=
  DB_Tx d cx tid (readOpt d) w.

Definition Update (d : DB) (cx : context_Context) (tid : string) (w : World) :=
  DB_Tx d cx tid (writeOpt d) w.

End Database.

(** ** Reading the trace *)

Section Observations.
Context `{C : Collaborators}.

(** The calls made on the underlying transaction, newest first. *)
Fixpoint tx_calls (tr : list Event) : list TxCall :=
  match tr with
  | [] => []
  | EvTx c :: tr' => c :: tx_calls tr'
  | _ :: tr' => tx_calls tr'
  end.

(** The calls of the logging callback, newest first. *)
Fixpoint log_events (tr : list Event) : list LogEvent :=
  match tr with
  | [] => []
  | EvLog e :: tr' => e :: log_events tr'
  | _ :: tr' => log_events tr'
  end.

(** How often the mutex was taken and released. *)
Fixpoint locks (tr : list Event) : nat :=
  match tr with
  | [] => 0
  | EvLock :: tr' => S (locks tr')
  | _ :: tr' => locks tr'
  end.

Fixpoint unlocks (tr : list Event) : nat :=
  match tr with
  | [] => 0
  | EvUnlock :: tr' => S (unlocks tr')
  | _ :: tr' => unlocks tr'
  end.

Definition is_commit (c : TxCall) : bool :=
  match c with CallCommit => true | _ => false end.

Definition is_rollback (c : TxCall) : bool :=
  match c with CallRollback => true | _ => false end.

(** How often the underlying [Commit] and [Rollback] were invoked. *)
Definition commits (s : St) : nat :=
  length (List.filter is_commit (tx_calls (trace (snd s)))).

Definition rollbacks (s : St) : nat :=
  length (List.filter is_rollback (tx_calls (trace (snd s)))).

(** An operation returned [a] and meanwhile called the logger with
    exactly the events [evs] (newest first). *)
Definition emits {A} (s : St) (o : Outcome A) (a : A) (evs : list LogEvent) : Prop :=
  exists s1 new, o = Returned a s1 /\
    trace (snd s1) = new ++ trace (snd s) /\ log_events new = evs.

(** How many calls of the logger an operation that returned has made. *)
Definition logged {A} (s : St) (o : Outcome A) : option nat :=
  match o with
  | Returned _ s1 =>
      Some (length (log_events (trace (snd s1))) - length (log_events (trace (snd s))))
  | _ => None
  end.

(** The seed the handle hashes with: its own once chosen, the runtime's
    next random seed before. *)
Definition seed_of (s : St) : Seed :=
  match seed (hash (fst s)) with
  | Some sd => sd
  | None => randSeed (rng (snd s))
  end.

(** The cache key [Query] computes for a query text in a state: the key
    its fingerprint step returns. *)
Definition key_of (s : St) (q : string) : Z :=
  match fingerprint q s with
  | Returned k _ => fst k
  | _ => 0%Z
  end.

(** The handle between two operations: the mutex is free and nothing is
    pending in the hash. *)
Definition idle (s : St) : Prop :=
  mu (fst s) = false /\ written (hash (fst s)) = "".

(** The handle after [Commit] or [Rollback]. *)
Definition terminated (s : St) : Prop :=
  mu (fst s) = false /\ done (fst s) = true.

(** What the owner of a handle can do between operations: call one of
    the four operations or assign to a variable of its own. *)
Inductive Op :=
| OpExec (stmt : Statement)
| OpQuery (dst : interface) (stmt : Statement)
| OpCommit
| OpRollback
| OpAssign (p : ptr) (v : Value).

Definition assign (p : ptr) (v : Value) (s : St) : St :=
  (fst s, mkWorld (store p v (heap (snd s))) (conn (snd s)) (trace (snd s))
                  (ticks (snd s)) (rng (snd s))).

Definition after {A} (o : Outcome A) : option St :=
  match o with
  | Returned _ s => Some s
  | _ => None
  end.

Definition result_of {A} (o : Outcome A) : option A :=
  match o with
  | Returned a _ => Some a
  | _ => None
  end.

(** The state after an operation that returned. *)
Definition run_op (o : Op) (s : St) : option St :=
  match o with
  | OpExec stmt => after (Exec stmt s)
  | OpQuery dst stmt => after (Query dst stmt s)
  | OpCommit => after (Commit s)
  | OpRollback => after (Rollback s)
  | OpAssign p v => Some (assign p v s)
  end.

Fixpoint run_ops (os : list Op) (s : St) : option St :=
  match os with
  | [] => Some s
  | o :: os' =>
      match run_op o s with
      | Some s' => run_ops os' s'
      | None => None
      end
  end.

(** Whether all operations of a run return. *)
Definition returns (os : list Op) (s : St) : bool :=
  match run_ops os s with
  | Some _ => true
  | None => false
  end.

(** The state after a run all of whose operations return. *)
Definition run_or (os : list Op) (s : St) : St :=
  match run_ops os s with
  | Some s' => s'
  | None => s
  end.

End Observations.

(** ** Symbolic execution *)

Ltac run :=
  cbv beta iota zeta delta
    [Query Exec Commit Rollback fingerprint defer mbind M_bind mret M_ret ret panic
     time_Now time_Since mu_Lock mu_Unlock log emit get_tx get_world put_tx
     put_world hash_WriteString hash_Sum64 hash_Reset hash_initSeed put_hash
     Value_Set reflect_ValueOf_Elem call_ExecContext call_QueryContext
     call_Commit call_Rollback call_Load set_done cache_put put_conn
     fst snd mu tid done tx ctx hash cache heap conn trace ticks rng seed
     written is_err negb key_of seed_of idle terminated after run_op assign commits rollbacks].

Ltac run_in H :=
  cbv beta iota zeta delta
    [Query Exec Commit Rollback fingerprint defer mbind M_bind mret M_ret ret panic
     time_Now time_Since mu_Lock mu_Unlock log emit get_tx get_world put_tx
     put_world hash_WriteString hash_Sum64 hash_Reset hash_initSeed put_hash
     Value_Set reflect_ValueOf_Elem call_ExecContext call_QueryContext
     call_Commit call_Rollback call_Load set_done cache_put put_conn
     fst snd mu tid done tx ctx hash cache heap conn trace ticks rng seed
     written is_err negb key_of seed_of idle terminated after run_op assign commits rollbacks] in H.

(** Case analysis on whatever blocks the evaluation: the innermost
    scrutinee that is not a constructor. *)
Ltac split_on t :=
  lazymatch t with
  | context [match ?x with _ => _ end] => split_on x
  | _ => destruct t eqn:?
  end.

Ltac split_match :=
  match goal with
  | |- context [match ?x with _ => _ end] => split_on x
  end.

Ltac split_match_in H :=
  match type of H with
  | context [match ?x with _ => _ end] => split_on x
  end.

(** Run an operation in a hypothesis or in the goal through all of its
    branches. *)
Ltac exec_in H := run_in H; repeat (split_match_in H; run_in H).
Ltac exec := run; repeat (split_match; run).

Ltac open_state s :=
  let m := fresh "m" in let i := fresh "i" in let dn := fresh "dn" in
  let x := fresh "x" in let cx := fresh "cx" in let sd := fresh "sd" in
  let wr := fresh "wr" in let ch := fresh "ch" in let w := fresh "w" in
  destruct s as [[m i dn x cx [sd wr] ch] w]; destruct w.

(** ** A stub driver

    A call-counting stand-in for the collaborators, to run the handle on
    concrete inputs.  Rows are lists of integers and a destination holds
    such a list; the decoder rejects negative numbers. *)

Module Stub.

Definition rows_of (q : string) : list Z * option string :=
  if String.eqb q "SELECT 1" then ([1%Z], None)
  else if String.eqb q "SELECT 2" then ([2%Z], None)
  else if String.eqb q "SELECT -1" then ([(-1)%Z], None)
  else ([], Some "no such table").

Definition load (rows : list Z) (dst : ptr) (h : ptr -> list Z) :
    (ptr -> list Z) * (Z * option string) :=
  if existsb (fun z => (z <? 0)%Z) rows
  then (h, (0%Z, Some "scan: negative value"))
  else (store dst rows h, (Z.of_nat (length rows), None)).

Fixpoint poly (s : string) (a : Z) : Z :=
  match s with
  | EmptyString => a
  | String c s' => poly s' (a * 31 + Z.of_nat (nat_of_ascii c))%Z
  end.

(** The stub's Go types are numbers: the variables at addresses below
    1000 have type 0, those of the next thousand type 1, and so on; a
    type is assignable to itself only.  Its decoder wants a pointer. *)
Definition stub_type_of (p : ptr) : nat := p / 1000.

Definition load_into {V : Type}
    (ld : list Z -> ptr -> (ptr -> V) -> (ptr -> V) * (Z * option string))
    (rows : list Z) (dst : interface) (h : ptr -> V) :
    (ptr -> V) * (Z * option string) :=
  match dst with
  | Pointer p => ld rows p h
  | _ => (h, (0%Z, Some "scan: destination is not a pointer"))
  end.

(** The stub over a type of values, a decoder and a clock. *)
Definition collaborators {V : Type}
    (ld : list Z -> ptr -> (ptr -> V) -> (ptr -> V) * (Z * option string))
    (clk : nat -> Z) : Collaborators := {|
  error := string;
  context_Context := unit;
  sql_Result := Z;
  sql_Rows := list Z;
  sql_Tx := unit;
  Conn := nat;
  Value := V;
  Seed := Z;
  reflect_Type := nat;
  type_of := stub_type_of;
  assignable := Nat.eqb;
  assignable_refl := Nat.eqb_refl;
  BeginTx := fun c _ _ => (c, (tt, None));
  ExecContext := fun c _ _ _ => (S c, (Some 1%Z, None));
  QueryContext := fun c _ _ q => (S c, rows_of q);
  tx_Commit := fun c _ => (S c, None);
  tx_Rollback := fun c _ => (S c, None);
  scan_Load := load_into ld;
  clock := clk;
  randSeed := fun n => (Z.of_nat n + 7)%Z;
  rthash := fun sd s => poly s sd
|}.

(** A clock that advances by one nanosecond at each reading, and one
    that is too coarse to tell two readings apart. *)
Definition ticking (n : nat) : Z := (1700000000000000000 + Z.of_nat n)%Z.
Definition coarse (n : nat) : Z := 1700000000000000000%Z.

Definition C0 : Collaborators := collaborators load ticking.
Definition Ccoarse : Collaborators := collaborators load coarse.

(** A fresh handle, as [DB.Tx] makes it, and an empty world. *)
Definition t0 : @Tx C0 := @mkTx C0 false "t1" false tt tt (@mkHash C0 None "") ∅.
Definition w0 : @World C0 := @mkWorld C0 (fun _ => []) 0 [] 0 0.
Definition s0 : @St C0 := (t0, w0).

Definition select1 : @Statement C0 := @mkStatement C0 ("SELECT 1", None) "Select{1}".
Definition select2 : @Statement C0 := @mkStatement C0 ("SELECT 2", None) "Select{2}".
Definition select_neg : @Statement C0 := @mkStatement C0 ("SELECT -1", None) "Select{-1}".
Definition select_missing : @Statement C0 := @mkStatement C0 ("SELECT x", None) "Select{x}".
Definition unbuildable : @Statement C0 :=
  @mkStatement C0 ("", Some "statement: no table") "Select{}".

(** A database over the stub and the worlds of the scenarios below. *)
Definition db0 : DB := fst (@New C0 (mkConfig 0 0)).
Definition wcoarse : @World Ccoarse := @mkWorld Ccoarse (fun _ => []) 0 [] 0 0.

(** Destinations that are slices: a variable holds a number or a slice
    header, and the elements of a slice live in cells of their own. *)
Inductive goval :=
| GoNil
| GoInt (z : Z)
| GoSlice (base : ptr) (len : nat).

Fixpoint fill (base : ptr) (rows : list Z) (h : ptr -> goval) : ptr -> goval :=
  match rows with
  | [] => h
  | z :: rows' => fill (S base) rows' (store base (GoInt z) h)
  end.

(** The decoder allocates the elements at an address of the
    destination's own and writes the header to the destination. *)
Definition load_slice (rows : list Z) (dst : ptr) (h : ptr -> goval) :
    (ptr -> goval) * (Z * option string) :=
  if existsb (fun z => (z <? 0)%Z) rows
  then (h, (0%Z, Some "scan: negative value"))
  else
    let base := 100 + 10 * dst in
    (store dst (GoSlice base (length rows)) (fill base rows h),
     (Z.of_nat (length rows), None)).

(** What a reader of the variable at [p] sees. *)
Definition elems (h : ptr -> goval) (p : ptr) : list goval :=
  match h p with
  | GoSlice base len => List.map (fun i => h (base + i)) (seq 0 len)
  | v => [v]
  end.

Definition Cslice : Collaborators := collaborators load_slice ticking.

Definition sl0 : @St Cslice :=
  (@mkTx Cslice false "t1" false tt tt (@mkHash Cslice None "") ∅,
   @mkWorld Cslice (fun _ => GoNil) 0 [] 0 0).

Definition sl_select1 : @Statement Cslice :=
  @mkStatement Cslice ("SELECT 1", None) "Select{1}".

(** The runs of the scenarios below: the states after them. *)
Definition after_select1 : @St C0 := run_or [OpQuery 1 select1] s0.
Definition after_select2 : @St C0 := run_or [OpQuery 1 select2] after_select1.
Definition after_commit : @St C0 := run_or [OpCommit] s0.
Definition after_commit_select1 : @St C0 := run_or [OpQuery 1 select1] after_commit.

End Stub.

(** ** Further observations and scenarios *)

Section MoreObservations.
Context `{C : Collaborators}.

(** An operation parked on the held mutex and did nothing else that can
    be seen. *)
Definition parked {A} (s : St) (o : Outcome A) : Prop :=
  exists s', o = Blocked s' /\
    trace (snd s') = trace (snd s) /\ conn (snd s') = conn (snd s) /\
    heap (snd s') = heap (snd s) /\ cache (fst s') = cache (fst s) /\
    done (fst s') = done (fst s).

(** A hit that [reflect] refuses: the destination is no pointer to a
    variable, or the entry is the zero [Value], or the type of the
    variable the entry refers to is not assignable to the type of the
    destination variable. *)
Definition hit_refused (dst : interface) (x : reflect_Value) : Prop :=
  match dst, x with
  | Pointer p, ValueAt r => assignable (type_of r) (type_of p) = false
  | _, _ => True
  end.

(** Every call of the logger so far carried the id [i]. *)
Definition logs_carry (i : string) (tr : list Event) : Prop :=
  Forall (fun e => id e = i) (log_events tr).

End MoreObservations.

Module Scenarios.
Import Stub.

(** A handle whose mutex another caller holds. *)
Definition held : @St C0 :=
  (@mkTx C0 true "t1" false tt tt (@mkHash C0 None "") ∅, w0).

(** A text other than [SELECT 1] with the same stub hash under every
    seed (the hash is a polynomial in base 31). *)
Definition collides : @Statement C0 := @mkStatement C0 ("SELF$T 1", None) "Select{F$}".

Definition update1 : @Statement C0 := @mkStatement C0 ("UPDATE t SET a = 1", None) "Update{}".

(** After [SELECT 1] into variable 1, an update and a commit. *)
Definition after_update_commit : @St C0 :=
  run_or [OpExec update1; OpCommit] after_select1.

(** The stub with a pool that cannot open a transaction. *)
Definition Cdown : Collaborators := {|
  error := string;
  context_Context := unit;
  sql_Result := Z;
  sql_Rows := list Z;
  sql_Tx := unit;
  Conn := nat;
  Value := list Z;
  Seed := Z;
  reflect_Type := nat;
  type_of := stub_type_of;
  assignable := Nat.eqb;
  assignable_refl := Nat.eqb_refl;
  BeginTx := fun c _ _ => (c, (tt, Some "pool: no connection"));
  ExecContext := @ExecContext C0;
  QueryContext := @QueryContext C0;
  tx_Commit := @tx_Commit C0;
  tx_Rollback := @tx_Rollback C0;
  scan_Load := load_into load;
  clock := ticking;
  randSeed := @randSeed C0;
  rthash := @rthash C0
|}.

Definition wdown : @World Cdown := @mkWorld Cdown (fun _ => []) 0 [] 0 0.

(** After a [SELECT x] that the driver rejects. *)
Definition after_missing : @St C0 := run_or [OpQuery 1 select_missing] s0.

End Scenarios.

Section Invariants.
Context `{C : Collaborators}.

Lemma key_of_eq (s : St) (q : string) :
  key_of s q = (rthash (seed_of s) (written (hash (fst s)) ++ q) mod 2 ^ 64)%Z.
Proof.
  open_state s. run. destruct sd; reflexivity.
Qed.

(** An operation that returns leaves the handle idle. *)
Lemma run_op_idle (o : Op) (s s' : St) :
  idle s -> run_op o s = Some s' -> idle s'.
Proof.
  intros [Hm Hw] H. open_state s. simpl in Hm, Hw. subst.
  destruct o; exec_in H; try discriminate;
    injection H as <-; run; auto.
Qed.

(** An operation of the handle that returns has taken the mutex once and
    released it once. *)
Lemma returning_operation_locks_once (o : Op) (s s' : St) :
  mu (fst s) = false ->
  (forall p v, o <> OpAssign p v) ->
  run_op o s = Some s' ->
  locks (trace (snd s')) = S (locks (trace (snd s))) /\
  unlocks (trace (snd s')) = S (unlocks (trace (snd s))).
Proof.
  intros Hm Hne H. open_state s. simpl in Hm. subst.
  destruct o; try (exfalso; eapply Hne; reflexivity);
    exec_in H; try discriminate; injection H as <-; simpl; auto.
Qed.


(** A property every returning operation preserves holds after any
    number of them. *)
Lemma run_ops_preserve (P : St -> Prop) :
  (forall o s s', P s -> run_op o s = Some s' -> P s') ->
  forall os s s', P s -> run_ops os s = Some s' -> P s'.
Proof.
  intros Hstep os. induction os as [|o os IH]; intros s s' HP H; simpl in H.
  - injection H as <-. exact HP.
  - destruct (run_op o s) as [s1|] eqn:Ho; [|discriminate].
    eapply IH; [|exact H]. eapply Hstep; eauto.
Qed.

(** *** Termination is final *)

Lemma run_op_terminated (o : Op) (s s' : St) :
  terminated s -> run_op o s = Some s' -> terminated s'.
Proof.
  intros [Hm Hd] H. open_state s. simpl in Hm, Hd. subst.
  destruct o; exec_in H; try discriminate;
    injection H as <-; run; auto.
Qed.

Lemma run_op_unlocked (o : Op) (s s' : St) :
  mu (fst s) = false -> run_op o s = Some s' -> mu (fst s') = false.
Proof.
  intros Hm H. open_state s. simpl in Hm. subst.
  destruct o; exec_in H; try discriminate;
    injection H as <-; run; auto.
Qed.

(** [Commit] always returns, with the handle marked done. *)
Lemma Commit_terminates (s : St) :
  mu (fst s) = false ->
  exists e s1, Commit s = Returned e s1 /\ terminated s1 /\
    tx_calls (trace (snd s1)) = CallCommit :: tx_calls (trace (snd s)).
Proof.
  intros Hm. open_state s. simpl in Hm. subst.
  run. eexists _, _. split; [reflexivity|]. simpl. auto.
Qed.

(** [Rollback] on a live handle calls the underlying rollback once and
    marks the handle done whatever the outcome. *)
Lemma Rollback_terminates (s : St) :
  mu (fst s) = false ->
  exists e s1, Rollback s = Returned e s1 /\ terminated s1.
Proof.
  intros Hm. open_state s. simpl in Hm. subst.
  destruct dn; run; eexists _, _; (split; [reflexivity|]); simpl; auto.
Qed.

(** [Rollback] on a handle that is done returns [nil] at the guard. *)
Lemma Rollback_done (s : St) :
  terminated s ->
  exists s1, Rollback s = Returned None s1 /\ terminated s1 /\
    trace (snd s1) = EvUnlock :: EvLock :: trace (snd s) /\
    conn (snd s1) = conn (snd s) /\ cache (fst s1) = cache (fst s) /\
    heap (snd s1) = heap (snd s).
Proof.
  intros [Hm Hd]. open_state s. simpl in Hm, Hd. subst.
  run. eexists. split; [reflexivity|]. simpl. auto 10.
Qed.

(** *** What [Exec], [Commit] and [Rollback] do *)

Lemma Exec_resolved (s : St) (stmt : Statement) (q : string) :
  mu (fst s) = false ->
  stmt_String stmt = (q, None) ->
  exists s1,
    Exec stmt s = Returned (snd (ExecContext (conn (snd s)) (tx (fst s)) (ctx (fst s)) q)) s1 /\
    trace (snd s1) =
      EvUnlock
      :: EvLog (mkLogEvent "db.tx.exec" (tid (fst s))
                  (snd (snd (ExecContext (conn (snd s)) (tx (fst s)) (ctx (fst s)) q)))
                  (clock (S (ticks (snd s))) - clock (ticks (snd s))) q)
      :: EvTx (CallExecContext q) :: EvLock :: trace (snd s) /\
    cache (fst s1) = cache (fst s).
Proof.
  intros Hm Hs. open_state s. simpl in Hm. subst.
  simpl. destruct (ExecContext conn0 x cx q) as [c1 [r e]] eqn:E.
  run. rewrite Hs. run. rewrite E. run.
  eexists. split; [reflexivity|]. simpl. auto.
Qed.

Lemma Commit_eq (s : St) :
  mu (fst s) = false ->
  exists s1,
    Commit s = Returned (snd (tx_Commit (conn (snd s)) (tx (fst s)))) s1 /\
    trace (snd s1) =
      EvUnlock
      :: EvLog (mkLogEvent "db.tx.commit" (tid (fst s))
                  (snd (tx_Commit (conn (snd s)) (tx (fst s))))
                  (clock (S (ticks (snd s))) - clock (ticks (snd s))) "")
      :: EvTx CallCommit :: EvLock :: trace (snd s) /\
    done (fst s1) = true.
Proof.
  intros Hm. open_state s. simpl in Hm. subst.
  simpl. destruct (tx_Commit conn0 x) as [c1 e] eqn:E.
  run. rewrite E. run.
  eexists. split; [reflexivity|]. simpl. auto.
Qed.

Lemma Rollback_active (s : St) :
  mu (fst s) = false ->
  done (fst s) = false ->
  exists s1,
    Rollback s = Returned (snd (tx_Rollback (conn (snd s)) (tx (fst s)))) s1 /\
    trace (snd s1) =
      EvUnlock
      :: EvLog (mkLogEvent "db.tx.rollback" (tid (fst s))
                  (snd (tx_Rollback (conn (snd s)) (tx (fst s))))
                  (clock (S (ticks (snd s))) - clock (ticks (snd s))) "")
      :: EvTx CallRollback :: EvLock :: trace (snd s) /\
    done (fst s1) = true.
Proof.
  intros Hm Hd. open_state s. simpl in Hm, Hd. subst.
  simpl. destruct (tx_Rollback conn0 x) as [c1 e] eqn:E.
  run. rewrite E. run.
  eexists. split; [reflexivity|]. simpl. auto.
Qed.

(** *** A statement that cannot be built *)

(** [Exec] unlocks by hand before it returns the build failure and the
    deferred unlock then finds the mutex free. *)
Lemma Exec_build_failure (s : St) (stmt : Statement) (q : string) (e : error) :
  mu (fst s) = false ->
  stmt_String stmt = (q, Some e) ->
  exists s1, Exec stmt s = Fatal "sync: unlock of unlocked mutex" s1 /\
    trace (snd s1) = EvUnlock :: EvLock :: trace (snd s) /\
    cache (fst s1) = cache (fst s) /\ conn (snd s1) = conn (snd s).
Proof.
  intros Hm Hs. open_state s. simpl in Hm. subst.
  run. rewrite Hs. run. eexists. split; [reflexivity|]. simpl. auto.
Qed.

(** [Query] reports the build failure and returns it; neither the
    underlying transaction nor the cache is touched. *)
Lemma Query_build_failure (s : St) (dst : ptr) (stmt : Statement) (q : string) (e : error) :
  mu (fst s) = false ->
  stmt_String stmt = (q, Some e) ->
  exists s1, Query dst stmt s = Returned (Some e) s1 /\
    tx_calls (trace (snd s1)) = tx_calls (trace (snd s)) /\
    cache (fst s1) = cache (fst s) /\ conn (snd s1) = conn (snd s) /\
    heap (snd s1) = heap (snd s) /\
    log_events (trace (snd s1)) =
      mkLogEvent "db.tx.query.build" (tid (fst s)) (Some e)
                 (clock (S (ticks (snd s))) - clock (ticks (snd s)))
                 (stmt_GoString stmt)
      :: log_events (trace (snd s)).
Proof.
  intros Hm Hs. open_state s. simpl in Hm. subst.
  run. rewrite Hs. run. eexists. split; [reflexivity|]. simpl. auto 10.
Qed.

(** *** The branches of [Query] on a statement that resolves *)

(** Cache hit into a variable that can take the cached value: the
    destination is assigned the current content of the variable the
    entry refers to; no call on the underlying transaction. *)
Lemma Query_hit (s : St) (dst : ptr) (stmt : Statement) (q : string) (r : ptr) :
  mu (fst s) = false ->
  stmt_String stmt = (q, None) ->
  cache (fst s) !! key_of s q = Some (ValueAt r) ->
  assignable (type_of r) (type_of dst) = true ->
  exists s1, Query dst stmt s = Returned None s1 /\
    heap (snd s1) = store dst (heap (snd s) r) (heap (snd s)) /\
    cache (fst s1) = cache (fst s) /\
    trace (snd s1) =
      EvUnlock
      :: EvLog (mkLogEvent "db.tx.query.cached" (tid (fst s)) None
                  (clock (S (ticks (snd s))) - clock (ticks (snd s))) q)
      :: EvLock :: trace (snd s) /\
    conn (snd s1) = conn (snd s) /\
    mu (fst s1) = false /\
    hash (fst s1) = mkHash (Some (seed_of s)) "".
Proof.
  intros Hm Hs Hk Ha. rewrite key_of_eq in Hk.
  open_state s. simpl in Hm. subst.
  unfold seed_of in Hk. simpl in Hk.
  run. rewrite Hs. run.
  destruct sd as [sd|]; run; rewrite Hk; run; rewrite Ha; run;
    eexists; (split; [reflexivity|]); simpl; auto 10.
Qed.

(** Cache hit into anything else (a variable of a type the cached value
    is not assignable to, a nil pointer, no pointer): [reflect] panics.
    The deferred unlock runs; nothing is assigned, nothing is logged and
    the underlying transaction is not called. *)
Lemma Query_hit_panics (s : St) (dst : interface) (stmt : Statement) (q : string)
    (x : reflect_Value) :
  mu (fst s) = false ->
  stmt_String stmt = (q, None) ->
  cache (fst s) !! key_of s q = Some x ->
  hit_refused dst x ->
  exists msg s1, Query dst stmt s = Panicked msg s1 /\
    heap (snd s1) = heap (snd s) /\
    cache (fst s1) = cache (fst s) /\
    trace (snd s1) = EvUnlock :: EvLock :: trace (snd s) /\
    conn (snd s1) = conn (snd s) /\
    mu (fst s1) = false.
Proof.
  intros Hm Hs Hk Hr. rewrite key_of_eq in Hk.
  open_state s. simpl in Hm. subst.
  unfold seed_of in Hk. simpl in Hk.
  run. rewrite Hs. run.
  destruct sd as [sd|]; run; rewrite Hk; run;
    destruct dst as [p| |], x as [r|]; simpl in Hr; run; try rewrite Hr; run;
    eexists _, _; (split; [reflexivity|]); simpl; auto 10.
Qed.

(** Cache miss, rows obtained and decoded: the entry stored under the
    key refers to the destination variable. *)
Lemma Query_miss_success (s : St) (dst : ptr) (stmt : Statement) (q : string)
    (c1 : Conn) (rows : sql_Rows) (h1 : ptr -> Value) (n : Z) :
  mu (fst s) = false ->
  stmt_String stmt = (q, None) ->
  cache (fst s) !! key_of s q = None ->
  QueryContext (conn (snd s)) (tx (fst s)) (ctx (fst s)) q = (c1, (rows, None)) ->
  scan_Load rows dst (heap (snd s)) = (h1, (n, None)) ->
  exists s1, Query dst stmt s = Returned None s1 /\
    heap (snd s1) = h1 /\
    cache (fst s1) = <[key_of s q := ValueAt dst]> (cache (fst s)) /\
    trace (snd s1) =
      EvUnlock
      :: EvLog (mkLogEvent "db.tx.query.cache.add" (tid (fst s)) None
                  (clock (S (ticks (snd s))) - clock (ticks (snd s))) q)
      :: EvTx (CallQueryContext q) :: EvLock :: trace (snd s) /\
    conn (snd s1) = c1 /\
    mu (fst s1) = false /\
    hash (fst s1) = mkHash (Some (seed_of s)) "".
Proof.
  intros Hm Hs Hk Hq Hl. rewrite key_of_eq. rewrite key_of_eq in Hk.
  open_state s. simpl in Hm, Hq, Hl. subst.
  unfold seed_of in *. simpl in Hk. simpl.
  run. rewrite Hs. run.
  destruct sd as [sd|]; run; rewrite Hk; run; rewrite Hq; run; rewrite Hl; run;
    eexists; (split; [reflexivity|]); simpl; auto 10.
Qed.

(** Cache miss, the underlying query fails: the failure is returned from
    line 139, before any call of the logger. *)
Lemma Query_tx_failure (s : St) (dst : ptr) (stmt : Statement) (q : string)
    (c1 : Conn) (rows : sql_Rows) (e : error) :
  mu (fst s) = false ->
  stmt_String stmt = (q, None) ->
  cache (fst s) !! key_of s q = None ->
  QueryContext (conn (snd s)) (tx (fst s)) (ctx (fst s)) q = (c1, (rows, Some e)) ->
  exists s1, Query dst stmt s = Returned (Some e) s1 /\
    log_events (trace (snd s1)) = log_events (trace (snd s)) /\
    cache (fst s1) = cache (fst s).
Proof.
  intros Hm Hs Hk Hq. rewrite key_of_eq in Hk.
  open_state s. simpl in Hm, Hq. subst.
  unfold seed_of in Hk. simpl in Hk.
  run. rewrite Hs. run.
  destruct sd as [sd|]; run; rewrite Hk; run; rewrite Hq; run;
    eexists; (split; [reflexivity|]); simpl; auto.
Qed.

(** Cache miss, rows obtained, decoding fails: the failure is returned
    from line 143, before any call of the logger. *)
Lemma Query_decode_failure (s : St) (dst : ptr) (stmt : Statement) (q : string)
    (c1 : Conn) (rows : sql_Rows) (h1 : ptr -> Value) (n : Z) (e : error) :
  mu (fst s) = false ->
  stmt_String stmt = (q, None) ->
  cache (fst s) !! key_of s q = None ->
  QueryContext (conn (snd s)) (tx (fst s)) (ctx (fst s)) q = (c1, (rows, None)) ->
  scan_Load rows dst (heap (snd s)) = (h1, (n, Some e)) ->
  exists s1, Query dst stmt s = Returned (Some e) s1 /\
    log_events (trace (snd s1)) = log_events (trace (snd s)) /\
    cache (fst s1) = cache (fst s).
Proof.
  intros Hm Hs Hk Hq Hl. rewrite key_of_eq in Hk.
  open_state s. simpl in Hm, Hq, Hl. subst.
  unfold seed_of in Hk. simpl in Hk.
  run. rewrite Hs. run.
  destruct sd as [sd|]; run; rewrite Hk; run; rewrite Hq; run; rewrite Hl; run;
    eexists; (split; [reflexivity|]); simpl; auto.
Qed.

(** *** The same text again *)

(** After a [Query] that returned [nil], the cache holds an entry for
    its text, and the variable the entry refers to holds what the call
    left in its destination. *)
Lemma Query_leaves_entry (s s1 : St) (dst : ptr) (stmt : Statement) (q : string) :
  idle s ->
  stmt_String stmt = (q, None) ->
  Query dst stmt s = Returned None s1 ->
  idle s1 /\
  exists r, cache (fst s1) !! key_of s1 q = Some (ValueAt r) /\
    heap (snd s1) r = heap (snd s1) dst /\
    assignable (type_of r) (type_of dst) = true.
Proof.
  intros Hi Hs H. split.
  { apply (run_op_idle (OpQuery dst stmt) s s1 Hi). simpl. rewrite H. reflexivity. }
  destruct Hi as [Hm Hw]. rewrite key_of_eq.
  open_state s. simpl in Hm, Hw. subst.
  run_in H. rewrite Hs in H.
  exec_in H; try discriminate; injection H as <-; unfold seed_of; simpl in *.
  all: first
    [ match goal with
      | Hc : _ !! _ = Some (ValueAt ?p) |- _ =>
          exists p; split; [exact Hc|]; split; [|assumption];
          unfold store; rewrite Nat.eqb_refl; destruct (Nat.eqb p dst) eqn:E;
          [apply Nat.eqb_eq in E; subst; reflexivity | reflexivity]
      end
    | exists dst; split; [apply lookup_insert_eq|];
      split; [reflexivity | apply assignable_refl] ].
Qed.

(** Issued again right away, the same text is served from the cache:
    the destination receives what the first call left in its own and the
    underlying transaction is not called. *)
Lemma Query_again_hits (s s1 : St) (dst dst2 : ptr) (stmt stmt2 : Statement) (q : string) :
  idle s ->
  stmt_String stmt = (q, None) ->
  stmt_String stmt2 = (q, None) ->
  type_of dst2 = type_of dst ->
  Query dst stmt s = Returned None s1 ->
  exists s2, Query dst2 stmt2 s1 = Returned None s2 /\
    heap (snd s2) dst2 = heap (snd s1) dst /\
    tx_calls (trace (snd s2)) = tx_calls (trace (snd s1)) /\
    conn (snd s2) = conn (snd s1).
Proof.
  intros Hi Hs Hs2 Hty H.
  destruct (Query_leaves_entry s s1 dst stmt q Hi Hs H) as ([Hm1 _] & r & Hk & Hr & Ha).
  rewrite <- Hty in Ha.
  destruct (Query_hit s1 dst2 stmt2 q r Hm1 Hs2 Hk Ha) as (s2 & H2 & Hh & _ & Ht & Hc & _).
  exists s2. split; [exact H2|]. split; [|split; [rewrite Ht; reflexivity|exact Hc]].
  rewrite Hh. unfold store. rewrite Nat.eqb_refl. exact Hr.
Qed.

(** *** Naming the state after a run *)

Lemma run_ops_run_or (os : list Op) (s : St) :
  returns os s = true -> run_ops os s = Some (run_or os s).
Proof. unfold returns, run_or. destruct (run_ops os s); [reflexivity | discriminate]. Qed.

Lemma Query_run_or (dst : ptr) (stmt : Statement) (s : St) (r : option error) :
  result_of (Query dst stmt s) = Some r ->
  Query dst stmt s = Returned r (run_or [OpQuery dst stmt] s).
Proof.
  unfold run_or. simpl. destruct (Query dst stmt s); simpl; intros H;
    [injection H as -> | discriminate ..]; reflexivity.
Qed.

Lemma Commit_run_or (s : St) (r : option error) :
  result_of (Commit s) = Some r -> Commit s = Returned r (run_or [OpCommit] s).
Proof.
  unfold run_or. simpl. destruct (Commit s); simpl; intros H;
    [injection H as -> | discriminate ..]; reflexivity.
Qed.

(** [DB.Tx] with an empty id on a pool that opens the transaction. *)
Lemma DB_Tx_created (d : DB) (cx : context_Context) (opts : Z * bool) (w : World) (t : Tx) :
  is_err (snd (snd (BeginTx (conn w) cx opts))) = false ->
  DB_Tx d cx "" opts w =
  (fst (DB_Tx d cx "" opts w), (Some (default t (fst (snd (DB_Tx d cx "" opts w)))), None)).
Proof. intros H. unfold DB_Tx. rewrite H. reflexivity. Qed.

(** *** The seed *)

(** No operation changes the seed the handle hashes with. *)
Lemma run_op_seed (o : Op) (s s' : St) :
  idle s -> run_op o s = Some s' -> seed_of s' = seed_of s.
Proof.
  intros [Hm Hw] H. open_state s. simpl in Hm, Hw. subst.
  destruct o; exec_in H; try discriminate;
    injection H as <-; run; auto.
Qed.

Lemma run_ops_seed (os : list Op) (s s' : St) :
  idle s -> run_ops os s = Some s' -> idle s' /\ seed_of s' = seed_of s.
Proof.
  intros Hi H.
  apply (run_ops_preserve (fun x => idle x /\ seed_of x = seed_of s)) with (os := os) (s := s);
    auto.
  intros o x x' [Hx He] Ho. split.
  - eapply run_op_idle; eauto.
  - rewrite <- He. eapply run_op_seed; eauto.
Qed.

End Invariants.

(** ** Facts about [FormatInt] in base 32 *)

Section FormatIntFacts.

Lemma digits_ok (n : Z) :
  (0 <= n < 32)%Z ->
  digit_val (digit n) = n /\ Ascii.eqb (digit n) "-" = false.
Proof.
  intros Hn.
  assert (forallb (fun k => (digit_val (digit (Z.of_nat k)) =? Z.of_nat k)%Z
                            && negb (Ascii.eqb (digit (Z.of_nat k)) "-"))
                  (seq 0 32) = true) as H by (vm_compute; reflexivity).
  rewrite forallb_forall in H.
  assert (In (Z.to_nat n) (seq 0 32)) as Hin by (apply in_seq; lia).
  specialize (H (Z.to_nat n) Hin).
  rewrite Z2Nat.id in H by lia.
  apply andb_prop in H. destruct H as [H1 H2].
  apply Z.eqb_eq in H1. apply negb_true_iff in H2. auto.
Qed.

Lemma string_app_cons (x : ascii) (a b : string) :
  (String x a ++ b = String x (a ++ b))%string.
Proof. reflexivity. Qed.

Lemma string_app_assoc (a b c : string) : ((a ++ b) ++ c = a ++ (b ++ c))%string.
Proof.
  induction a as [|x a IH]; [reflexivity|].
  rewrite !string_app_cons, IH. reflexivity.
Qed.

Lemma parse32_app (s1 s2 : string) (a : Z) :
  parse32 (s1 ++ s2) a = parse32 s2 (parse32 s1 a).
Proof.
  revert a. induction s1 as [|c s1 IH]; intros a; [reflexivity|].
  rewrite string_app_cons. simpl. apply IH.
Qed.

Lemma formatBits_acc (fuel : nat) (u : Z) (acc : string) :
  formatBits fuel u 32 acc = (formatBits fuel u 32 "" ++ acc)%string.
Proof.
  revert u acc. induction fuel as [|fuel IH]; intros u acc; simpl.
  - reflexivity.
  - destruct (32 <=? u)%Z; [|reflexivity].
    rewrite IH. rewrite (IH _ (String _ "")). rewrite string_app_assoc. reflexivity.
Qed.

Lemma formatBits_nonempty (fuel : nat) (u b : Z) (acc : string) :
  formatBits fuel u b acc <> "".
Proof.
  revert u acc. induction fuel as [|fuel IH]; intros u acc; simpl.
  - discriminate.
  - destruct (b <=? u)%Z; [apply IH | discriminate].
Qed.

(** The rendering of a number below [32 ^ (fuel + 1)] reads back as the
    number and starts with a digit. *)
Lemma parse32_formatBits (fuel : nat) (u : Z) :
  (0 <= u < 32 ^ (Z.of_nat fuel + 1))%Z ->
  parse32 (formatBits fuel u 32 "") 0 = u /\
  exists c rest, formatBits fuel u 32 "" = String c rest /\ Ascii.eqb c "-" = false.
Proof.
  revert u. induction fuel as [|fuel IH]; intros u Hu.
  - simpl. change (32 ^ (Z.of_nat 0 + 1))%Z with 32%Z in Hu.
    destruct (digits_ok u Hu) as [Hv Hd]. split; [simpl; lia|]. eauto.
  - simpl. destruct (32 <=? u)%Z eqn:E.
    + apply Z.leb_le in E.
      assert (0 <= u / 32 < 32 ^ (Z.of_nat fuel + 1))%Z as Hq.
      { split; [apply Z.div_pos; lia|].
        apply Z.div_lt_upper_bound; [lia|].
        replace (Z.of_nat (S fuel) + 1)%Z with (Z.succ (Z.of_nat fuel + 1)) in Hu by lia.
        rewrite Z.pow_succ_r in Hu by lia. lia. }
      destruct (IH _ Hq) as (Hp & c & rest & Hf & Hc).
      rewrite formatBits_acc. split.
      * rewrite parse32_app, Hp. simpl.
        destruct (digits_ok (u mod 32)) as [Hv _]; [apply Z.mod_pos_bound; lia|].
        rewrite Hv. pose proof (Z.div_mod u 32). lia.
      * rewrite Hf, string_app_cons. eauto.
    + apply Z.leb_gt in E.
      destruct (digits_ok u) as [Hv Hd]; [lia|]. split; [simpl; lia|]. eauto.
Qed.

Lemma int64_range (z : Z) : (- 2 ^ 63 <= int64 z < 2 ^ 63)%Z.
Proof.
  unfold int64. pose proof (Z.mod_pos_bound (z + 2 ^ 63) (2 ^ 64)). lia.
Qed.

(** On the 64-bit integers a rendering determines the number. *)
Lemma ParseInt32_FormatInt (i : Z) :
  (- 2 ^ 63 <= i < 2 ^ 63)%Z -> ParseInt32 (FormatInt i 32) = i.
Proof.
  intros Hi. unfold FormatInt.
  assert (2 ^ 63 < 32 ^ (Z.of_nat 64 + 1))%Z as Hb by (vm_compute; reflexivity).
  destruct (i <? 0)%Z eqn:E.
  - apply Z.ltb_lt in E. unfold ParseInt32. rewrite Ascii.eqb_refl.
    destruct (parse32_formatBits 64 (- i)) as [Hp _]; [lia|].
    rewrite Hp. lia.
  - apply Z.ltb_ge in E.
    destruct (parse32_formatBits 64 i) as (Hp & c & rest & Hf & Hc); [lia|].
    unfold ParseInt32. rewrite Hf, Hc, <- Hf. exact Hp.
Qed.

Lemma FormatInt_nonempty (i b : Z) : FormatInt i b <> "".
Proof.
  unfold FormatInt. destruct (i <? 0)%Z; [discriminate | apply formatBits_nonempty].
Qed.

End FormatIntFacts.

(** ** The claims *)

Section Claims.
Context `{C : Collaborators}.

(** C5.  Every operation takes the mutex at entry and should release it
    exactly once on every exit path.  [Exec] does not on a statement that
    cannot be built: it unlocks by hand, returns, and the deferred unlock
    runs on a free mutex, which the runtime answers with a fatal error. *)
Theorem Exec_build_failure_unlocks_twice (s : St) (stmt : Statement) (q : string) (e : error) :
  mu (fst s) = false ->
  stmt_String stmt = (q, Some e) ->
  exists s1, Exec stmt s = Fatal "sync: unlock of unlocked mutex" s1 /\
    trace (snd s1) = EvUnlock :: EvLock :: trace (snd s).
Proof.
  intros Hm Hs. destruct (Exec_build_failure s stmt q e Hm Hs) as (s1 & H & Ht & _).
  exists s1. auto.
Qed.

(** C8.  A statement whose resolution fails: [Query] returns the build
    failure without a call on the underlying transaction and without
    touching the cache; [Exec] makes no call and leaves the cache alone
    as well, but it does not return the failure (it does not return). *)
Theorem build_failure_Query_returns_Exec_does_not
    (s : St) (dst : ptr) (stmt : Statement) (q : string) (e : error) :
  mu (fst s) = false ->
  stmt_String stmt = (q, Some e) ->
  (exists s1, Query dst stmt s = Returned (Some e) s1 /\
     tx_calls (trace (snd s1)) = tx_calls (trace (snd s)) /\
     cache (fst s1) = cache (fst s)) /\
  (forall r s1, Exec stmt s <> Returned r s1) /\
  (exists msg s1, Exec stmt s = Fatal msg s1 /\
     tx_calls (trace (snd s1)) = tx_calls (trace (snd s)) /\
     cache (fst s1) = cache (fst s)).
Proof.
  intros Hm Hs.
  destruct (Query_build_failure s dst stmt q e Hm Hs) as (s1 & HQ & Hc & Hk & _).
  destruct (Exec_build_failure s stmt q e Hm Hs) as (s2 & HE & Ht & Hk2 & _).
  split; [|split].
  - exists s1. auto.
  - intros r s3. rewrite HE. discriminate.
  - exists "sync: unlock of unlocked mutex", s2. split; [exact HE|].
    split; [|exact Hk2]. rewrite Ht. reflexivity.
Qed.

(** C6.  After [Commit] or [Rollback] has returned, and whatever the
    owner does with the handle next, [Rollback] returns [nil] and makes
    no call on the underlying transaction. *)
Theorem Rollback_after_termination_is_noop
    (s s1 s2 : St) (r : option error) (ops : list Op) :
  mu (fst s) = false ->
  Commit s = Returned r s1 \/ Rollback s = Returned r s1 ->
  run_ops ops s1 = Some s2 ->
  exists s3, Rollback s2 = Returned None s3 /\
    tx_calls (trace (snd s3)) = tx_calls (trace (snd s2)) /\
    conn (snd s3) = conn (snd s2) /\
    done (fst s3) = true.
Proof.
  intros Hm Hterm Hops.
  assert (terminated s1) as H1.
  { destruct Hterm as [H|H].
    - destruct (Commit_terminates s Hm) as (e & s' & Heq & Ht & _).
      rewrite Heq in H. injection H as _ <-. exact Ht.
    - destruct (Rollback_terminates s Hm) as (e & s' & Heq & Ht).
      rewrite Heq in H. injection H as _ <-. exact Ht. }
  assert (terminated s2) as H2.
  { eapply (run_ops_preserve terminated); eauto using run_op_terminated. }
  destruct (Rollback_done s2 H2) as (s3 & HR & Ht & Htr & Hc & _).
  exists s3. split; [exact HR|]. rewrite Htr. simpl.
  destruct Ht. auto.
Qed.


(** C9.  Within one handle the key computed for a query text does not
    depend on what was fingerprinted before: after a [Query] and whatever
    the owner does next, every text has the key it had, the runtime hash
    of the text under the handle's seed. *)
Theorem fingerprint_is_stable
    (s s1 s2 : St) (dst : ptr) (stmt : Statement) (r : option error)
    (ops : list Op) (q : string) :
  idle s ->
  Query dst stmt s = Returned r s1 ->
  run_ops ops s1 = Some s2 ->
  key_of s1 q = key_of s q /\
  key_of s2 q = key_of s q /\
  key_of s q = (rthash (seed_of s) q mod 2 ^ 64)%Z.
Proof.
  intros Hi HQ Hops.
  assert (run_ops [OpQuery dst stmt] s = Some s1) as H1.
  { simpl. rewrite HQ. reflexivity. }
  destruct (run_ops_seed _ _ _ Hi H1) as [Hi1 Hs1].
  destruct (run_ops_seed _ _ _ Hi1 Hops) as [Hi2 Hs2].
  rewrite !key_of_eq, Hs2, Hs1.
  destruct Hi as [_ ->], Hi1 as [_ ->], Hi2 as [_ ->]. auto.
Qed.

(** C3, as the code has it.  [Commit] marks the handle done whether the
    underlying commit succeeded or failed, and from then on [Rollback]
    makes no call on the underlying transaction; a later [Commit] is
    handed to the underlying transaction once more. *)
Theorem Commit_is_final_for_Rollback_only (s : St) :
  mu (fst s) = false ->
  exists s1,
    Commit s = Returned (snd (tx_Commit (conn (snd s)) (tx (fst s)))) s1 /\
    done (fst s1) = true /\
    forall ops s2, run_ops ops s1 = Some s2 ->
      (exists s3, Rollback s2 = Returned None s3 /\
         tx_calls (trace (snd s3)) = tx_calls (trace (snd s2))) /\
      (exists e s3, Commit s2 = Returned e s3 /\
         tx_calls (trace (snd s3)) = CallCommit :: tx_calls (trace (snd s2))).
Proof.
  intros Hm.
  destruct (Commit_eq s Hm) as (s1 & HC & _ & Hd).
  destruct (Commit_terminates s Hm) as (e & s1' & HC' & Ht & _).
  rewrite HC in HC'. injection HC' as _ <-.
  exists s1. split; [exact HC|]. split; [exact Hd|].
  intros ops s2 Hops.
  assert (terminated s2) as H2.
  { eapply (run_ops_preserve terminated); eauto using run_op_terminated. }
  split.
  - destruct (Rollback_done s2 H2) as (s3 & HR & _ & Htr & _).
    exists s3. split; [exact HR|]. rewrite Htr. reflexivity.
  - destruct (Commit_terminates s2 (proj1 H2)) as (e2 & s3 & HC2 & _ & Htr).
    exists e2, s3. auto.
Qed.

(** C2, as the code has it.  The paths that report: [Commit] always,
    [Rollback] on a live handle, [Exec] on a statement that resolves,
    [Query] on a build failure, on a cache hit into a variable that can
    take the cached value and on a miss decoded into a variable.  Each
    calls the logger exactly once, with the error it returns.
    [Rollback] on a handle that is done returns at its guard and calls
    the logger not at all. *)
Theorem one_log_event_on_reporting_paths (s : St) :
  mu (fst s) = false ->
  let dt := (clock (S (ticks (snd s))) - clock (ticks (snd s)))%Z in
  let i := tid (fst s) in
  (let e := snd (tx_Commit (conn (snd s)) (tx (fst s))) in
   emits s (Commit s) e [mkLogEvent "db.tx.commit" i e dt ""]) /\
  (done (fst s) = false ->
   let e := snd (tx_Rollback (conn (snd s)) (tx (fst s))) in
   emits s (Rollback s) e [mkLogEvent "db.tx.rollback" i e dt ""]) /\
  (done (fst s) = true -> emits s (Rollback s) None []) /\
  (forall stmt q, stmt_String stmt = (q, None) ->
   let r := snd (ExecContext (conn (snd s)) (tx (fst s)) (ctx (fst s)) q) in
   emits s (Exec stmt s) r [mkLogEvent "db.tx.exec" i (snd r) dt q]) /\
  (forall dst stmt q e, stmt_String stmt = (q, Some e) ->
   emits s (Query dst stmt s) (Some e)
     [mkLogEvent "db.tx.query.build" i (Some e) dt (stmt_GoString stmt)]) /\
  (forall (dst : ptr) stmt q r, stmt_String stmt = (q, None) ->
   cache (fst s) !! key_of s q = Some (ValueAt r) ->
   assignable (type_of r) (type_of dst) = true ->
   emits s (Query dst stmt s) None [mkLogEvent "db.tx.query.cached" i None dt q]) /\
  (forall (dst : ptr) stmt q c1 rows h1 n, stmt_String stmt = (q, None) ->
   cache (fst s) !! key_of s q = None ->
   QueryContext (conn (snd s)) (tx (fst s)) (ctx (fst s)) q = (c1, (rows, None)) ->
   scan_Load rows dst (heap (snd s)) = (h1, (n, None)) ->
   emits s (Query dst stmt s) None [mkLogEvent "db.tx.query.cache.add" i None dt q]).
Proof.
  intros Hm. cbv zeta. unfold emits.
  refine (conj _ (conj _ (conj _ (conj _ (conj _ (conj _ _)))))).
  - destruct (Commit_eq s Hm) as (s1 & H & Ht & _).
    eexists s1, [_; _; _; _]. rewrite Ht. repeat split; [exact H|reflexivity..].
  - intros Hd. destruct (Rollback_active s Hm Hd) as (s1 & H & Ht & _).
    eexists s1, [_; _; _; _]. rewrite Ht. repeat split; [exact H|reflexivity..].
  - intros Hd. destruct (Rollback_done s (conj Hm Hd)) as (s1 & H & _ & Ht & _).
    eexists s1, [_; _]. rewrite Ht. repeat split; [exact H|reflexivity..].
  - intros stmt q Hs. destruct (Exec_resolved s stmt q Hm Hs) as (s1 & H & Ht & _).
    eexists s1, [_; _; _; _]. rewrite Ht. repeat split; [exact H|reflexivity..].
  - intros dst stmt q e Hs. open_state s. simpl in Hm. subst.
    run. rewrite Hs. run.
    eexists _, [_; _; _]. repeat split; reflexivity.
  - intros dst stmt q r Hs Hk Ha.
    destruct (Query_hit s dst stmt q r Hm Hs Hk Ha) as (s1 & H & _ & _ & Ht & _).
    eexists s1, [_; _; _]. rewrite Ht. repeat split; [exact H|reflexivity..].
  - intros dst stmt q c1 rows h1 n Hs Hk Hq Hl.
    destruct (Query_miss_success s dst stmt q c1 rows h1 n Hm Hs Hk Hq Hl)
      as (s1 & H & _ & _ & Ht & _).
    eexists s1, [_; _; _; _]. rewrite Ht. repeat split; [exact H|reflexivity..].
Qed.

(** C4, as the code has it.  A cache hit into a variable whose type the
    cached value is assignable to assigns to it the current content of
    the variable the entry refers to, by one Go assignment, and leaves
    the cache alone.  When the destination is another variable than that
    one, assigning to the destination afterwards does not change what a
    later [Query] for the same text hands out (to a destination that can
    take it). *)
Theorem cache_hit_assigns_top_level_value
    (s : St) (dst : ptr) (stmt : Statement) (q : string) (r : ptr) :
  idle s ->
  stmt_String stmt = (q, None) ->
  cache (fst s) !! key_of s q = Some (ValueAt r) ->
  assignable (type_of r) (type_of dst) = true ->
  exists s1, Query dst stmt s = Returned None s1 /\
    heap (snd s1) = store dst (heap (snd s) r) (heap (snd s)) /\
    cache (fst s1) = cache (fst s) /\
    tx_calls (trace (snd s1)) = tx_calls (trace (snd s)) /\
    (dst <> r ->
     forall (v : Value) (dst' : ptr),
     assignable (type_of r) (type_of dst') = true ->
     exists s2, Query dst' stmt (assign dst v s1) = Returned None s2 /\
       heap (snd s2) dst' = heap (snd s) r).
Proof.
  intros [Hm Hw] Hs Hk Ha.
  destruct (Query_hit s dst stmt q r Hm Hs Hk Ha) as (s1 & H & Hh & Hc & Ht & _ & Hm1 & Hh1).
  exists s1. split; [exact H|]. split; [exact Hh|]. split; [exact Hc|].
  split; [rewrite Ht; reflexivity|].
  intros Hne v dst' Ha'.
  assert (key_of (assign dst v s1) q = key_of s q) as Hkey.
  { rewrite !key_of_eq. unfold seed_of, assign. simpl. rewrite Hh1, Hw. reflexivity. }
  destruct (Query_hit (assign dst v s1) dst' stmt q r) as (s2 & H2 & Hh2 & _).
  - exact Hm1.
  - exact Hs.
  - rewrite Hkey. simpl. rewrite Hc. exact Hk.
  - exact Ha'.
  - exists s2. split; [exact H2|]. rewrite Hh2. unfold assign. simpl. rewrite Hh.
    assert (Nat.eqb r dst = false) as E by (apply Nat.eqb_neq; congruence).
    unfold store. rewrite Nat.eqb_refl, !E. reflexivity.
Qed.

(** C10, as the code has it.  A handle created with an empty id gets the
    base-32 rendering of the clock reading in nanoseconds, which is not
    empty; two such handles have the same id exactly when their clock
    readings are the same 64-bit number. *)
Theorem generated_tid_is_the_rendered_timestamp
    (d1 d2 : DB) (cx1 cx2 : context_Context) (opts1 opts2 : Z * bool)
    (w w' w1 w2 : World) (t1 t2 : Tx) :
  DB_Tx d1 cx1 "" opts1 w = (w1, (Some t1, None)) ->
  DB_Tx d2 cx2 "" opts2 w' = (w2, (Some t2, None)) ->
  tid t1 = FormatInt (UnixNano (clock (ticks w))) 32 /\
  tid t1 <> "" /\
  (tid t1 = tid t2 <-> UnixNano (clock (ticks w)) = UnixNano (clock (ticks w'))).
Proof.
  intros H1 H2. unfold DB_Tx in H1, H2. simpl in H1, H2.
  destruct (is_err (snd (snd (BeginTx (conn w) cx1 opts1)))); [discriminate|].
  destruct (is_err (snd (snd (BeginTx (conn w') cx2 opts2)))); [discriminate|].
  injection H1 as _ <-. injection H2 as _ <-. simpl.
  split; [reflexivity|]. split; [apply FormatInt_nonempty|].
  split.
  - intros H. apply (f_equal ParseInt32) in H.
    rewrite !ParseInt32_FormatInt in H by apply int64_range. exact H.
  - intros ->. reflexivity.
Qed.

End Claims.

(** ** The claims on the stub driver *)

Section OnTheStub.
Import Stub.

(** C1.  A statement issued twice on one handle should get the first
    call's rows again without a round-trip.  It gets no round-trip, but
    the cache entry refers to the first call's destination variable: once
    that variable has received the rows of another query, the second call
    hands out those.  [SELECT 1] into variable 1, [SELECT 2] into
    variable 1, [SELECT 1] into variable 2: the last call is a hit and
    delivers the rows of [SELECT 2]. *)
Theorem Query_cache_serves_rows_of_another_query :
  heap (snd after_select1) 1 = [1%Z] /\
  returns [@OpQuery C0 1 select1; OpQuery 1 select2; OpQuery 2 select1] s0 = true /\
  result_of (@Query C0 2 select1 after_select2) = Some None /\
  option_map (fun s => heap (snd s) 2) (after (@Query C0 2 select1 after_select2))
    = Some [2%Z] /\
  option_map (fun s => tx_calls (trace (snd s))) (after (@Query C0 2 select1 after_select2))
    = Some (tx_calls (trace (snd after_select2))).
Proof. split; [|split; [|split; [|split]]]; vm_compute; reflexivity. Qed.

(** C2 fails where the code means it to: [Rollback] on a handle that
    [Commit] has terminated returns without a call of the logger. *)
Lemma Rollback_after_Commit_logs_nothing :
  done (fst after_commit) = true /\
  result_of (@Rollback C0 after_commit) = Some None /\
  logged after_commit (@Rollback C0 after_commit) = Some 0.
Proof. split; [|split]; vm_compute; reflexivity. Qed.

(** The failures [Query] returns from lines 139 and 143 pass no logger
    call either (the call on line 152 cannot be reached), and [Exec] on a
    statement that cannot be built does not get to its logger call. *)
Example Query_failures_log_nothing :
  logged s0 (@Query C0 1 select_missing s0) = Some 0 /\
  logged s0 (@Query C0 1 select_neg s0) = Some 0 /\
  logged s0 (@Exec C0 unbuildable s0) = None.
Proof. split; [|split]; vm_compute; reflexivity. Qed.

(** C3 fails for a second [Commit]: it invokes the underlying commit
    again. *)
Lemma second_Commit_invokes_commit_again :
  commits after_commit = 1 /\
  option_map commits (after (@Commit C0 after_commit)) = Some 2.
Proof. split; vm_compute; reflexivity. Qed.

(** C4 fails for a destination that is a slice: the hit copies the
    header, the elements stay shared.  [SELECT 1] into variable 1 (miss),
    into variable 2 (hit); the caller overwrites element 0 of variable 2,
    which is cell 110; [SELECT 1] into variable 3 then reads 9. *)
Lemma cache_hit_shares_slice_elements :
  option_map (fun s : @St Cslice => heap (snd s) 2)
    (run_ops [OpQuery 1 sl_select1; OpQuery 2 sl_select1] sl0)
    = Some (GoSlice 110 1) /\
  option_map (fun s : @St Cslice => elems (heap (snd s)) 2)
    (run_ops [OpQuery 1 sl_select1; OpQuery 2 sl_select1] sl0)
    = Some [GoInt 1] /\
  option_map (fun s : @St Cslice => elems (heap (snd s)) 3)
    (run_ops [OpQuery 1 sl_select1; OpQuery 2 sl_select1;
              @OpAssign Cslice 110 (GoInt 9); OpQuery 3 sl_select1] sl0)
    = Some [GoInt 9].
Proof. split; [|split]; vm_compute; reflexivity. Qed.

(** C10 fails on a clock that does not advance between two readings:
    two handles created one after the other get the same id. *)
Lemma same_clock_reading_same_tid :
  option_map tid (fst (snd (@Read Ccoarse db0 tt "" wcoarse)))
    = Some "1f5ssvor2k000" /\
  option_map tid
    (fst (snd (@Read Ccoarse db0 tt "" (fst (@Read Ccoarse db0 tt "" wcoarse)))))
    = Some "1f5ssvor2k000".
Proof. split; vm_compute; reflexivity. Qed.

End OnTheStub.

(** *** The theorems at concrete inputs *)

Lemma Exec_build_failure_unlocks_twice_witness :
  mu (fst Stub.s0) = false /\
  stmt_String Stub.unbuildable = ("", Some "statement: no table") /\
  exists s1,
    @Exec Stub.C0 Stub.unbuildable Stub.s0 = Fatal "sync: unlock of unlocked mutex" s1 /\
    trace (snd s1) = EvUnlock :: EvLock :: trace (snd Stub.s0).
Proof.
  split; [reflexivity|]. split; [reflexivity|].
  apply (@Exec_build_failure_unlocks_twice Stub.C0 Stub.s0 Stub.unbuildable
           "" "statement: no table"); reflexivity.
Defined.

Lemma build_failure_Query_returns_Exec_does_not_witness :
  (exists s1, @Query Stub.C0 1 Stub.unbuildable Stub.s0
              = Returned (Some "statement: no table") s1 /\
     tx_calls (trace (snd s1)) = tx_calls (trace (snd Stub.s0)) /\
     cache (fst s1) = cache (fst Stub.s0)) /\
  (forall r s1, @Exec Stub.C0 Stub.unbuildable Stub.s0 <> Returned r s1) /\
  (exists msg s1, @Exec Stub.C0 Stub.unbuildable Stub.s0 = Fatal msg s1 /\
     tx_calls (trace (snd s1)) = tx_calls (trace (snd Stub.s0)) /\
     cache (fst s1) = cache (fst Stub.s0)).
Proof.
  apply (@build_failure_Query_returns_Exec_does_not Stub.C0 Stub.s0 1 Stub.unbuildable
           "" "statement: no table"); reflexivity.
Defined.

Lemma Rollback_after_termination_is_noop_witness :
  exists s3,
    @Rollback Stub.C0 Stub.after_commit_select1 = Returned None s3 /\
    tx_calls (trace (snd s3)) = tx_calls (trace (snd Stub.after_commit_select1)) /\
    conn (snd s3) = conn (snd Stub.after_commit_select1) /\
    done (fst s3) = true.
Proof.
  apply (@Rollback_after_termination_is_noop Stub.C0 Stub.s0
           Stub.after_commit _ None [OpQuery 1 Stub.select1]).
  - reflexivity.
  - left. apply Commit_run_or. vm_compute. reflexivity.
  - apply run_ops_run_or. vm_compute. reflexivity.
Defined.


Lemma fingerprint_is_stable_witness :
  key_of Stub.after_select1 "SELECT 1" = key_of Stub.s0 "SELECT 1" /\
  key_of Stub.after_select2 "SELECT 1" = key_of Stub.s0 "SELECT 1" /\
  key_of Stub.s0 "SELECT 1" = (rthash (seed_of Stub.s0) "SELECT 1" mod 2 ^ 64)%Z.
Proof.
  apply (@fingerprint_is_stable Stub.C0 Stub.s0 _ _ 1 Stub.select1 None
           [OpQuery 1 Stub.select2] "SELECT 1").
  - split; reflexivity.
  - apply Query_run_or. vm_compute. reflexivity.
  - apply run_ops_run_or. vm_compute. reflexivity.
Defined.

Lemma Commit_is_final_for_Rollback_only_witness :
  exists s1,
    @Commit Stub.C0 Stub.s0 = Returned None s1 /\
    done (fst s1) = true /\
    forall ops s2, run_ops ops s1 = Some s2 ->
      (exists s3, Rollback s2 = Returned None s3 /\
         tx_calls (trace (snd s3)) = tx_calls (trace (snd s2))) /\
      (exists e s3, Commit s2 = Returned e s3 /\
         tx_calls (trace (snd s3)) = CallCommit :: tx_calls (trace (snd s2))).
Proof.
  apply (@Commit_is_final_for_Rollback_only Stub.C0 Stub.s0). reflexivity.
Defined.

Lemma one_log_event_on_reporting_paths_witness :
  emits Stub.s0 (@Commit Stub.C0 Stub.s0) None
    [@mkLogEvent Stub.C0 "db.tx.commit" "t1" None 1 ""] /\
  emits Stub.s0 (@Rollback Stub.C0 Stub.s0) None
    [@mkLogEvent Stub.C0 "db.tx.rollback" "t1" None 1 ""] /\
  emits Stub.s0 (@Query Stub.C0 1 Stub.unbuildable Stub.s0) (Some "statement: no table")
    [@mkLogEvent Stub.C0 "db.tx.query.build" "t1" (Some "statement: no table") 1 "Select{}"].
Proof.
  pose proof (@one_log_event_on_reporting_paths Stub.C0 Stub.s0 eq_refl) as H.
  cbv zeta in H. destruct H as (Hc & Hr & _ & _ & Hb & _).
  split; [exact Hc|]. split; [exact (Hr eq_refl)|].
  exact (Hb 1 Stub.unbuildable "" "statement: no table" eq_refl).
Defined.

Lemma cache_hit_assigns_top_level_value_witness :
  exists s1, @Query Stub.C0 2 Stub.select1 Stub.after_select1 = Returned None s1 /\
    heap (snd s1) = store 2 (heap (snd Stub.after_select1) 1) (heap (snd Stub.after_select1)) /\
    cache (fst s1) = cache (fst Stub.after_select1) /\
    tx_calls (trace (snd s1)) = tx_calls (trace (snd Stub.after_select1)) /\
    (2 <> 1 ->
     forall (v : @Value Stub.C0) (dst' : ptr),
     @assignable Stub.C0 (type_of 1) (type_of dst') = true ->
     exists s2, @Query Stub.C0 dst' Stub.select1 (assign 2 v s1) = Returned None s2 /\
       heap (snd s2) dst' = heap (snd Stub.after_select1) 1).
Proof.
  apply (@cache_hit_assigns_top_level_value Stub.C0 _ 2 Stub.select1 "SELECT 1" 1).
  - split; vm_compute; reflexivity.
  - reflexivity.
  - vm_compute. reflexivity.
  - reflexivity.
Defined.

Lemma generated_tid_is_the_rendered_timestamp_witness :
  tid (default Stub.t0 (fst (snd (@Read Stub.C0 Stub.db0 tt "" Stub.w0))))
    = FormatInt (UnixNano (Stub.ticking 0)) 32 /\
  tid (default Stub.t0 (fst (snd (@Read Stub.C0 Stub.db0 tt "" Stub.w0)))) <> "" /\
  (tid (default Stub.t0 (fst (snd (@Read Stub.C0 Stub.db0 tt "" Stub.w0))))
   = tid (default Stub.t0
            (fst (snd (@Update Stub.C0 Stub.db0 tt ""
                         (fst (@Read Stub.C0 Stub.db0 tt "" Stub.w0))))))
   <-> UnixNano (Stub.ticking 0) = UnixNano (Stub.ticking 1)).
Proof.
  apply (@generated_tid_is_the_rendered_timestamp Stub.C0 Stub.db0 Stub.db0 tt tt
           (readOpt Stub.db0) (writeOpt Stub.db0) Stub.w0
           (fst (@Read Stub.C0 Stub.db0 tt "" Stub.w0))
           (fst (@Read Stub.C0 Stub.db0 tt "" Stub.w0))
           (fst (@Update Stub.C0 Stub.db0 tt "" (fst (@Read Stub.C0 Stub.db0 tt "" Stub.w0))))).
  - apply (@DB_Tx_created Stub.C0 Stub.db0 tt (readOpt Stub.db0) Stub.w0 Stub.t0). reflexivity.
  - apply (@DB_Tx_created Stub.C0 Stub.db0 tt (writeOpt Stub.db0) _ Stub.t0). reflexivity.
Defined.

(** ** Further properties of the handle and of the wrapper *)

Section Further.
Context `{C : Collaborators}.

(** *** Helpers *)

Lemma run_op_cache_persist (o : Op) (s s' : St) (k : Z) (r : reflect_Value) :
  mu (fst s) = false ->
  cache (fst s) !! k = Some r ->
  run_op o s = Some s' ->
  cache (fst s') !! k = Some r.
Proof.
  intros Hm Hk H. open_state s. simpl in Hm, Hk. subst.
  destruct o; exec_in H; try discriminate; injection H as <-; simpl; auto.
  all: rewrite lookup_insert_ne; [exact Hk|]; intros <-; simpl in *; congruence.
Qed.

Lemma run_op_run_or (o : Op) (s : St) :
  returns [o] s = true -> run_op o s = Some (run_or [o] s).
Proof.
  unfold returns, run_or. simpl. destruct (run_op o s); [reflexivity | discriminate].
Qed.

Lemma run_ops_cache_persist (os : list Op) (s s' : St) (k : Z) (r : reflect_Value) :
  mu (fst s) = false ->
  cache (fst s) !! k = Some r ->
  run_ops os s = Some s' ->
  cache (fst s') !! k = Some r.
Proof.
  intros Hm Hk H.
  apply (run_ops_preserve (fun x => mu (fst x) = false /\ cache (fst x) !! k = Some r))
    with (os := os) (s := s) (s' := s'); auto.
  intros o x x' [Hx Hc] Ho. split.
  - eapply run_op_unlocked; eauto.
  - eapply run_op_cache_persist; eauto.
Qed.



(** *** The wrapper *)

(** X1.  When the pool cannot open a transaction, [DB.Tx] returns no
    handle and the pool's error; it has not read the clock and has not
    touched memory. *)
Theorem DB_Tx_begin_failure
    (d : DB) (cx : context_Context) (i : string) (opts : Z * bool) (w : World)
    (c1 : Conn) (t : sql_Tx) (e : error) :
  BeginTx (conn w) cx opts = (c1, (t, Some e)) ->
  exists w1, DB_Tx d cx i opts w = (w1, (None, Some e)) /\
    ticks w1 = ticks w /\ heap w1 = heap w /\ conn w1 = c1 /\
    tx_calls (trace w1) = tx_calls (trace w) /\
    log_events (trace w1) = log_events (trace w).
Proof.
  intros H. unfold DB_Tx. rewrite H. simpl.
  eexists. split; [reflexivity|]. simpl. auto 10.
Qed.

(** X2.  [DB.Tx] keeps an id the caller supplies: the handle carries it
    unchanged and the clock is not read. *)
Theorem DB_Tx_keeps_given_id
    (d : DB) (cx : context_Context) (i : string) (opts : Z * bool) (w : World)
    (c1 : Conn) (t : sql_Tx) :
  i <> "" ->
  BeginTx (conn w) cx opts = (c1, (t, None)) ->
  exists h w1, DB_Tx d cx i opts w = (w1, (Some h, None)) /\
    tid h = i /\ tx h = t /\ ticks w1 = ticks w /\ conn w1 = c1.
Proof.
  intros Hi H. unfold DB_Tx. rewrite H. simpl.
  destruct (String.eqb i "") eqn:E.
  - apply String.eqb_eq in E. contradiction.
  - eexists _, _. split; [reflexivity|]. simpl. auto.
Qed.



(** *** [Exec] *)

(** X5.  On a statement that resolves, [Exec] makes one call of
    [ExecContext] with the query text and hands back the driver's result
    and error as they are; the cache, memory and the termination flag
    stay as they were. *)
Theorem Exec_passes_the_driver_answer_through (s : St) (stmt : Statement) (q : string) :
  mu (fst s) = false ->
  stmt_String stmt = (q, None) ->
  exists s1,
    Exec stmt s = Returned (snd (ExecContext (conn (snd s)) (tx (fst s)) (ctx (fst s)) q)) s1 /\
    tx_calls (trace (snd s1)) = CallExecContext q :: tx_calls (trace (snd s)) /\
    conn (snd s1) = fst (ExecContext (conn (snd s)) (tx (fst s)) (ctx (fst s)) q) /\
    cache (fst s1) = cache (fst s) /\
    heap (snd s1) = heap (snd s) /\
    done (fst s1) = done (fst s).
Proof.
  intros Hm Hs. open_state s. simpl in Hm. subst.
  simpl. destruct (ExecContext conn0 x cx q) as [c1 [r e]] eqn:E.
  run. rewrite Hs. run. rewrite E. run.
  eexists. split; [reflexivity|]. simpl. auto 10.
Qed.

(** *** The cache *)

(** X6.  Nothing is ever taken out of the cache or replaced in it: an
    entry present at some point is present, unchanged, after any run of
    operations. *)
Theorem cache_entries_persist
    (os : list Op) (s s' : St) (k : Z) (r : reflect_Value) :
  mu (fst s) = false ->
  cache (fst s) !! k = Some r ->
  run_ops os s = Some s' ->
  cache (fst s') !! k = Some r.
Proof.
  intros Hm Hk H. exact (run_ops_cache_persist os s s' k r Hm Hk H).
Qed.

(** X7.  Once a [Query] into a variable has returned [nil] for a text,
    every later [Query] for that text on the handle is a cache hit,
    whatever the owner did in between (other queries, [Exec], [Commit],
    [Rollback]) and whatever destination it is given: it makes no call
    on the underlying transaction, and it either returns [nil] or panics
    in [reflect].  It returns [nil] when its destination is a variable of
    the type of the first destination. *)
Theorem cached_text_is_never_queried_again
    (s s1 s2 : St) (dst : ptr) (dst2 : interface) (stmt stmt2 : Statement) (q : string)
    (ops : list Op) :
  idle s ->
  stmt_String stmt = (q, None) ->
  stmt_String stmt2 = (q, None) ->
  Query dst stmt s = Returned None s1 ->
  run_ops ops s1 = Some s2 ->
  (exists s3,
     (Query dst2 stmt2 s2 = Returned None s3 \/
      exists msg, Query dst2 stmt2 s2 = Panicked msg s3) /\
     tx_calls (trace (snd s3)) = tx_calls (trace (snd s2)) /\
     conn (snd s3) = conn (snd s2)) /\
  (forall p2 : ptr, type_of p2 = type_of dst ->
   exists s3, Query p2 stmt2 s2 = Returned None s3).
Proof.
  intros Hi Hs Hs2 HQ Hops.
  destruct (Query_leaves_entry s s1 dst stmt q Hi Hs HQ) as (Hi1 & r & Hk & _ & Ha).
  destruct (run_ops_seed ops s1 s2 Hi1 Hops) as [Hi2 Hseed].
  assert (key_of s2 q = key_of s1 q) as Hkey.
  { rewrite !key_of_eq, Hseed. destruct Hi1 as [_ ->], Hi2 as [_ ->]. reflexivity. }
  assert (cache (fst s2) !! key_of s2 q = Some (ValueAt r)) as Hk2.
  { rewrite Hkey. apply (run_ops_cache_persist ops s1 s2 _ _ (proj1 Hi1) Hk Hops). }
  split.
  - assert (hit_refused dst2 (ValueAt r) \/
            exists p2, dst2 = Pointer p2 /\ assignable (type_of r) (type_of p2) = true)
      as [Hr | (p2 & -> & Ha2)].
    { destruct dst2 as [p2| |]; simpl; auto.
      destruct (assignable (type_of r) (type_of p2)) eqn:E; eauto. }
    + destruct (Query_hit_panics s2 dst2 stmt2 q (ValueAt r) (proj1 Hi2) Hs2 Hk2 Hr)
        as (msg & s3 & H3 & _ & _ & Ht & Hc & _).
      exists s3. split; [right; eauto|]. split; [rewrite Ht; reflexivity | exact Hc].
    + destruct (Query_hit s2 p2 stmt2 q r (proj1 Hi2) Hs2 Hk2 Ha2)
        as (s3 & H3 & _ & _ & Ht & Hc & _).
      exists s3. split; [left; exact H3|]. split; [rewrite Ht; reflexivity | exact Hc].
  - intros p2 Hty. rewrite <- Hty in Ha.
    destruct (Query_hit s2 p2 stmt2 q r (proj1 Hi2) Hs2 Hk2 Ha) as (s3 & H3 & _).
    exists s3. exact H3.
Qed.

(** X8.  The same text twice in a row, into variables of one type: the
    second [Query] returns [nil], its destination receives what the
    first call left in its own, and the underlying transaction is not
    called. *)
Theorem same_text_twice_in_a_row
    (s s1 : St) (dst dst2 : ptr) (stmt stmt2 : Statement) (q : string) :
  idle s ->
  stmt_String stmt = (q, None) ->
  stmt_String stmt2 = (q, None) ->
  type_of dst2 = type_of dst ->
  Query dst stmt s = Returned None s1 ->
  exists s2, Query dst2 stmt2 s1 = Returned None s2 /\
    heap (snd s2) dst2 = heap (snd s1) dst /\
    tx_calls (trace (snd s2)) = tx_calls (trace (snd s1)).
Proof.
  intros Hi Hs Hs2 Hty HQ.
  destruct (Query_again_hits s s1 dst dst2 stmt stmt2 q Hi Hs Hs2 Hty HQ)
    as (s2 & H & Hh & Ht & _).
  exists s2. auto.
Qed.


(** X10.  The cache is looked up by fingerprint alone: a text whose
    fingerprint equals that of a cached text meets the cached entry,
    without a call on the underlying transaction.  A destination
    variable the entry is assignable to receives it and [Query] returns
    [nil]; with a destination variable of another type [Query] panics in
    [reflect]. *)
Theorem equal_fingerprints_share_an_entry
    (s : St) (dst : ptr) (stmt : Statement) (q q' : string) (r : ptr) :
  mu (fst s) = false ->
  cache (fst s) !! key_of s q = Some (ValueAt r) ->
  stmt_String stmt = (q', None) ->
  key_of s q' = key_of s q ->
  (assignable (type_of r) (type_of dst) = true ->
   exists s1, Query dst stmt s = Returned None s1 /\
     heap (snd s1) dst = heap (snd s) r /\
     tx_calls (trace (snd s1)) = tx_calls (trace (snd s))) /\
  (assignable (type_of r) (type_of dst) = false ->
   exists msg s1, Query dst stmt s = Panicked msg s1 /\
     heap (snd s1) = heap (snd s) /\
     tx_calls (trace (snd s1)) = tx_calls (trace (snd s))).
Proof.
  intros Hm Hk Hs Hkey. rewrite <- Hkey in Hk. split; intros Ha.
  - destruct (Query_hit s dst stmt q' r Hm Hs Hk Ha) as (s1 & H & Hh & _ & Ht & _).
    exists s1. split; [exact H|]. split.
    + rewrite Hh. unfold store. rewrite Nat.eqb_refl. reflexivity.
    + rewrite Ht. reflexivity.
  - destruct (Query_hit_panics s dst stmt q' (ValueAt r) Hm Hs Hk Ha)
      as (msg & s1 & H & Hh & _ & Ht & _).
    exists msg, s1. split; [exact H|]. split; [exact Hh|]. rewrite Ht. reflexivity.
Qed.

(** *** The mutex *)

(** X11.  While the mutex is held no operation gets past its entry: it
    parks without a call on the underlying transaction, without a call
    of the logger and without a change to cache, memory or the
    termination flag. *)
Theorem held_mutex_stops_every_operation (s : St) :
  mu (fst s) = true ->
  (forall stmt, parked s (Exec stmt s)) /\
  (forall dst stmt, parked s (Query dst stmt s)) /\
  parked s (Commit s) /\
  parked s (Rollback s).
Proof.
  intros Hm. open_state s. simpl in Hm. subst. unfold parked.
  refine (conj _ (conj _ (conj _ _))); intros; run;
    eexists; (split; [reflexivity|]); simpl; auto 10.
Qed.

(** X12.  An operation that returns has taken the mutex once, released
    it once and left it free. *)
Theorem returning_operation_leaves_the_mutex_free (o : Op) (s s' : St) :
  mu (fst s) = false ->
  (forall p v, o <> OpAssign p v) ->
  run_op o s = Some s' ->
  locks (trace (snd s')) = S (locks (trace (snd s))) /\
  unlocks (trace (snd s')) = S (unlocks (trace (snd s))) /\
  mu (fst s') = false.
Proof.
  intros Hm Hne H.
  destruct (returning_operation_locks_once o s s' Hm Hne H) as [Hl Hu].
  split; [exact Hl|]. split; [exact Hu|]. eapply run_op_unlocked; eauto.
Qed.

(** *** [Rollback] *)

(** X13.  [Rollback] on a handle that is not done calls the underlying
    rollback exactly once, returns its error as it is, reports it to the
    logger and marks the handle done even when the rollback failed. *)
Theorem Rollback_of_a_live_handle (s : St) :
  mu (fst s) = false ->
  done (fst s) = false ->
  exists s1,
    Rollback s = Returned (snd (tx_Rollback (conn (snd s)) (tx (fst s)))) s1 /\
    tx_calls (trace (snd s1)) = CallRollback :: tx_calls (trace (snd s)) /\
    log_events (trace (snd s1)) =
      mkLogEvent "db.tx.rollback" (tid (fst s))
                 (snd (tx_Rollback (conn (snd s)) (tx (fst s))))
                 (clock (S (ticks (snd s))) - clock (ticks (snd s))) ""
      :: log_events (trace (snd s)) /\
    done (fst s1) = true /\
    cache (fst s1) = cache (fst s).
Proof.
  intros Hm Hd. open_state s. simpl in Hm, Hd. subst.
  simpl. destruct (tx_Rollback conn0 x) as [c1 e] eqn:E.
  run. rewrite E. run.
  eexists. split; [reflexivity|]. simpl. auto 10.
Qed.

(** *** The logger *)

Lemma run_op_logs_carry (o : Op) (s s' : St) :
  mu (fst s) = false ->
  logs_carry (tid (fst s)) (trace (snd s)) ->
  run_op o s = Some s' ->
  mu (fst s') = false /\ tid (fst s') = tid (fst s) /\
  logs_carry (tid (fst s)) (trace (snd s')).
Proof.
  intros Hm Hl H. unfold logs_carry in *. open_state s. simpl in Hm, Hl. subst.
  destruct o; exec_in H; try discriminate; injection H as <-; simpl;
    repeat split; auto; constructor; auto.
Qed.

(** X14.  The id of a handle never changes, and every call of the logger
    an operation of the handle makes carries it. *)
Theorem every_log_event_carries_the_tid (os : list Op) (s s' : St) :
  mu (fst s) = false ->
  logs_carry (tid (fst s)) (trace (snd s)) ->
  run_ops os s = Some s' ->
  tid (fst s') = tid (fst s) /\
  logs_carry (tid (fst s)) (trace (snd s')).
Proof.
  intros Hm Hl H.
  assert (mu (fst s') = false /\ tid (fst s') = tid (fst s) /\
          logs_carry (tid (fst s)) (trace (snd s'))) as (_ & Ht & Hc).
  { apply (run_ops_preserve
             (fun x => mu (fst x) = false /\ tid (fst x) = tid (fst s) /\
                       logs_carry (tid (fst s)) (trace (snd x))))
      with (os := os) (s := s); auto.
    intros o x x' (Hx & Hi & Hc) Ho.
    rewrite <- Hi in Hc.
    destruct (run_op_logs_carry o x x' Hx Hc Ho) as (Hm' & Hi' & Hc').
    rewrite Hi in Hi', Hc'. auto. }
  auto.
Qed.

End Further.

(** *** The further properties at concrete inputs *)

Lemma DB_Tx_begin_failure_witness :
  exists w1, @DB_Tx Scenarios.Cdown Stub.db0 tt "" (0%Z, true) Scenarios.wdown
             = (w1, (None, Some "pool: no connection")) /\
    ticks w1 = ticks Scenarios.wdown /\ heap w1 = heap Scenarios.wdown /\ conn w1 = 0 /\
    tx_calls (trace w1) = tx_calls (trace Scenarios.wdown) /\
    log_events (trace w1) = log_events (trace Scenarios.wdown).
Proof.
  apply (@DB_Tx_begin_failure Scenarios.Cdown Stub.db0 tt "" (0%Z, true) Scenarios.wdown
           0 tt "pool: no connection").
  reflexivity.
Defined.

Lemma DB_Tx_keeps_given_id_witness :
  exists h w1, @DB_Tx Stub.C0 Stub.db0 tt "tx-7" (0%Z, false) Stub.w0 = (w1, (Some h, None)) /\
    tid h = "tx-7" /\ tx h = tt /\ ticks w1 = ticks Stub.w0 /\ conn w1 = 0.
Proof.
  apply (@DB_Tx_keeps_given_id Stub.C0 Stub.db0 tt "tx-7" (0%Z, false) Stub.w0 0 tt).
  - discriminate.
  - reflexivity.
Defined.


Lemma Exec_passes_the_driver_answer_through_witness :
  exists s1,
    @Exec Stub.C0 Scenarios.update1 Stub.s0 = Returned (Some 1%Z, None) s1 /\
    tx_calls (trace (snd s1))
    = CallExecContext "UPDATE t SET a = 1" :: tx_calls (trace (snd Stub.s0)) /\
    conn (snd s1) = 1 /\
    cache (fst s1) = cache (fst Stub.s0) /\
    heap (snd s1) = heap (snd Stub.s0) /\
    done (fst s1) = done (fst Stub.s0).
Proof.
  apply (@Exec_passes_the_driver_answer_through Stub.C0 Stub.s0 Scenarios.update1
           "UPDATE t SET a = 1"); reflexivity.
Defined.

Lemma cache_entries_persist_witness :
  cache (fst Scenarios.after_update_commit) !! key_of Stub.s0 "SELECT 1" = Some (ValueAt 1).
Proof.
  unfold Scenarios.after_update_commit.
  apply (@cache_entries_persist Stub.C0 [OpExec Scenarios.update1; OpCommit]
           Stub.after_select1 _).
  - vm_compute. reflexivity.
  - vm_compute. reflexivity.
  - apply run_ops_run_or. vm_compute. reflexivity.
Defined.

Lemma cached_text_is_never_queried_again_witness :
  (exists s3,
     (@Query Stub.C0 2 Stub.select1 Scenarios.after_update_commit = Returned None s3 \/
      exists msg, @Query Stub.C0 2 Stub.select1 Scenarios.after_update_commit
                  = Panicked msg s3) /\
     tx_calls (trace (snd s3)) = tx_calls (trace (snd Scenarios.after_update_commit)) /\
     conn (snd s3) = conn (snd Scenarios.after_update_commit)) /\
  (forall p2 : ptr, @type_of Stub.C0 p2 = type_of 1 ->
   exists s3, @Query Stub.C0 p2 Stub.select1 Scenarios.after_update_commit
              = Returned None s3).
Proof.
  unfold Scenarios.after_update_commit.
  apply (@cached_text_is_never_queried_again Stub.C0 Stub.s0 Stub.after_select1
           _ 1 2 Stub.select1 Stub.select1 "SELECT 1"
           [OpExec Scenarios.update1; OpCommit]).
  - split; reflexivity.
  - reflexivity.
  - reflexivity.
  - apply Query_run_or. vm_compute. reflexivity.
  - apply run_ops_run_or. vm_compute. reflexivity.
Defined.

Lemma same_text_twice_in_a_row_witness :
  exists s2, @Query Stub.C0 2 Stub.select1 Stub.after_select1 = Returned None s2 /\
    heap (snd s2) 2 = heap (snd Stub.after_select1) 1 /\
    tx_calls (trace (snd s2)) = tx_calls (trace (snd Stub.after_select1)).
Proof.
  apply (@same_text_twice_in_a_row Stub.C0 Stub.s0 Stub.after_select1 1 2
           Stub.select1 Stub.select1 "SELECT 1").
  - split; reflexivity.
  - reflexivity.
  - reflexivity.
  - reflexivity.
  - apply Query_run_or. vm_compute. reflexivity.
Defined.


Lemma equal_fingerprints_share_an_entry_witness :
  "SELF$T 1" <> "SELECT 1" /\
  (exists s1, @Query Stub.C0 2 Scenarios.collides Stub.after_select1 = Returned None s1 /\
     heap (snd s1) 2 = heap (snd Stub.after_select1) 1 /\
     tx_calls (trace (snd s1)) = tx_calls (trace (snd Stub.after_select1))) /\
  (exists msg s1,
     @Query Stub.C0 1000 Scenarios.collides Stub.after_select1 = Panicked msg s1 /\
     heap (snd s1) = heap (snd Stub.after_select1) /\
     tx_calls (trace (snd s1)) = tx_calls (trace (snd Stub.after_select1))).
Proof.
  split; [discriminate|]. split.
  - apply (@equal_fingerprints_share_an_entry Stub.C0 Stub.after_select1 2 Scenarios.collides
             "SELECT 1" "SELF$T 1" 1).
    + vm_compute. reflexivity.
    + vm_compute. reflexivity.
    + reflexivity.
    + vm_compute. reflexivity.
    + reflexivity.
  - apply (@equal_fingerprints_share_an_entry Stub.C0 Stub.after_select1 1000
             Scenarios.collides "SELECT 1" "SELF$T 1" 1).
    + vm_compute. reflexivity.
    + vm_compute. reflexivity.
    + reflexivity.
    + vm_compute. reflexivity.
    + reflexivity.
Defined.

Lemma held_mutex_stops_every_operation_witness :
  (forall stmt, parked Scenarios.held (@Exec Stub.C0 stmt Scenarios.held)) /\
  (forall dst stmt, parked Scenarios.held (@Query Stub.C0 dst stmt Scenarios.held)) /\
  parked Scenarios.held (@Commit Stub.C0 Scenarios.held) /\
  parked Scenarios.held (@Rollback Stub.C0 Scenarios.held).
Proof.
  apply (@held_mutex_stops_every_operation Stub.C0 Scenarios.held). reflexivity.
Defined.

Lemma returning_operation_leaves_the_mutex_free_witness :
  locks (trace (snd Stub.after_commit)) = S (locks (trace (snd Stub.s0))) /\
  unlocks (trace (snd Stub.after_commit)) = S (unlocks (trace (snd Stub.s0))) /\
  mu (fst Stub.after_commit) = false.
Proof.
  unfold Stub.after_commit.
  apply (@returning_operation_leaves_the_mutex_free Stub.C0 OpCommit Stub.s0 _).
  - reflexivity.
  - discriminate.
  - apply (@run_op_run_or Stub.C0 OpCommit Stub.s0). vm_compute. reflexivity.
Defined.

Lemma Rollback_of_a_live_handle_witness :
  exists s1,
    @Rollback Stub.C0 Stub.s0 = Returned None s1 /\
    tx_calls (trace (snd s1)) = CallRollback :: tx_calls (trace (snd Stub.s0)) /\
    log_events (trace (snd s1)) =
      @mkLogEvent Stub.C0 "db.tx.rollback" "t1" None 1 ""
      :: log_events (trace (snd Stub.s0)) /\
    done (fst s1) = true /\
    cache (fst s1) = cache (fst Stub.s0).
Proof.
  apply (@Rollback_of_a_live_handle Stub.C0 Stub.s0); reflexivity.
Defined.

Lemma every_log_event_carries_the_tid_witness :
  tid (fst (run_or [OpQuery 1 Stub.select1; OpExec Scenarios.update1; OpCommit] Stub.s0))
    = tid (fst Stub.s0) /\
  logs_carry (tid (fst Stub.s0))
    (trace (snd (run_or [OpQuery 1 Stub.select1; OpExec Scenarios.update1; OpCommit] Stub.s0))).
Proof.
  apply (@every_log_event_carries_the_tid Stub.C0
           [OpQuery 1 Stub.select1; OpExec Scenarios.update1; OpCommit] Stub.s0 _).
  - reflexivity.
  - constructor.
  - apply run_ops_run_or. vm_compute. reflexivity.
Defined.
